(** * IronClaw helper scripts: a shallow embedding and its properties

    The development follows four Python modules of the repository:

    - [scholarly-assistant/mcp_http_wrapper.py]  (module [Bridge])
    - [scholarly-assistant/test_http_wrapper.py] (module [MockBackend])
    - [sdk/python/ironclaw_tools.py]             (module [Tools])
    - [scripts/update_feature_parity.py]         (module [Parity])

    Python values that travel through [json] are modelled by the inductive
    type [value]; a Python [str] is a Rocq [string] holding its UTF-8
    encoding; [bytes] is [list byte].  Exceptions are explicit: a computation
    yields a [result], and code that also performs effects runs in the
    state-and-exception monad [M]. *)

From Stdlib Require Import String Ascii List ZArith Bool Lia.
From Stdlib Require Import Strings.Byte.
From Stdlib Require Import DecimalString.
From Stdlib Require Import SpecFloat.
Import ListNotations.
Open Scope string_scope.

(** ** Python values *)

Definition bytes := list byte.

(** What [json.loads] can return: [None], [bool], [int], [float], [str],
    [list] and [dict].  A [float] is carried by its [repr] (the shortest
    decimal text that reads back as the same float); a [dict] keeps
    insertion order. *)
Set Warnings "-register-all".
Inductive value : Type :=
| VNone
| VBool (b : bool)
| VInt (n : Z)
| VFloat (repr : string)
| VStr (s : string)
| VList (l : list value)
| VDict (d : list (string * value)).

Definition dict := list (string * value).

(** [d.get(k, default)] *)
Fixpoint dict_get (d : dict) (k : string) (default : value) : value :=
  match d with
  | [] => default
  | (k', v) :: d' => if String.eqb k' k then v else dict_get d' k default
  end.

(** [k in d] *)
Fixpoint dict_mem (d : dict) (k : string) : bool :=
  match d with
  | [] => false
  | (k', _) :: d' => String.eqb k' k || dict_mem d' k
  end.

(** [d[k] = v]: overwrite in place, or append a new key at the end. *)
Fixpoint dict_set (d : dict) (k : string) (v : value) : dict :=
  match d with
  | [] => [(k, v)]
  | (k', v') :: d' =>
      if String.eqb k' k then (k', v) :: d' else (k', v') :: dict_set d' k v
  end.

(** [type(v).__name__] *)
Definition type_name (v : value) : string :=
  match v with
  | VNone => "NoneType"
  | VBool _ => "bool"
  | VInt _ => "int"
  | VFloat _ => "float"
  | VStr _ => "str"
  | VList _ => "list"
  | VDict _ => "dict"
  end.

(** [bool(v)] *)
Definition truthy (v : value) : bool :=
  match v with
  | VNone => false
  | VBool b => b
  | VInt n => negb (n =? 0)%Z
  | VFloat r => negb (String.eqb r "0.0" || String.eqb r "-0.0")
  | VStr s => negb (String.eqb s EmptyString)
  | VList l => match l with [] => false | _ => true end
  | VDict d => match d with [] => false | _ => true end
  end.

(** [str(n)] for an [int]. *)
Definition str_of_Z (n : Z) : string := NilZero.string_of_int (Z.to_int n).

Definition nl : string := String (ascii_of_nat 10) EmptyString.

(** ** Exceptions *)

Inductive exn : Type :=
| JSONDecodeError (msg : string)
| UnicodeDecodeError (msg : string)
| AttributeError (msg : string)
| RuntimeError (msg : string)
| ReError (msg : string)
| HTTPError (code : Z) (reason : string) (fp : option bytes)
| URLError (reason : string)
| OtherError (cls : string) (msg : string).

(** [str(e)] *)
Definition exn_str (e : exn) : string :=
  match e with
  | JSONDecodeError m | UnicodeDecodeError m | AttributeError m
  | RuntimeError m | ReError m | OtherError _ m => m
  | HTTPError code reason _ => "HTTP Error " ++ str_of_Z code ++ ": " ++ reason
  | URLError reason => "<urlopen error " ++ reason ++ ">"
  end.

Inductive result (A : Type) : Type :=
| Return (a : A)
| Raise (e : exn).
Arguments Return {A} a.
Arguments Raise {A} e.

(** ** State and exceptions *)

Definition M (S A : Type) : Type := S -> result A * S.

Definition ret {S A} (a : A) : M S A := fun s => (Return a, s).
Definition raise {S A} (e : exn) : M S A := fun s => (Raise e, s).
Definition bind {S A B} (m : M S A) (k : A -> M S B) : M S B :=
  fun s => match m s with
           | (Return a, s') => k a s'
           | (Raise e, s') => (Raise e, s')
           end.
Definition lift {S A} (r : result A) : M S A := fun s => (r, s).
Definition modify {S} (f : S -> S) : M S unit := fun s => (Return tt, f s).
Definition gets {S A} (f : S -> A) : M S A := fun s => (Return (f s), s).

(** [try: body except <handler>]: the handler answers [None] for an
    exception its [except] clause does not name, and the exception then
    propagates.  Effects of [body] up to the raise are kept. *)
Definition try_except {S A} (body : M S A) (handler : exn -> option (M S A))
  : M S A :=
  fun s => match body s with
           | (Return a, s') => (Return a, s')
           | (Raise e, s') =>
               match handler e with
               | Some h => h s'
               | None => (Raise e, s')
               end
           end.

Declare Scope py_scope.
Delimit Scope py_scope with py.
Notation "x <- m ;; k" := (bind m (fun x => k))
  (at level 61, m at next level, right associativity) : py_scope.
Notation "m ;;; k" := (bind m (fun _ => k))
  (at level 61, right associativity) : py_scope.

(** [v.get(k, default)] on an arbitrary value: only a [dict] has the
    method. *)
Definition value_get (v : value) (k : string) (default : value)
  : result value :=
  match v with
  | VDict d => Return (dict_get d k default)
  | _ => Raise (AttributeError
                  ("'" ++ type_name v ++ "' object has no attribute 'get'"))
  end.

(** [v == s] for a string literal [s]. *)
Definition value_is_str (v : value) (s : string) : bool :=
  match v with
  | VStr s' => String.eqb s' s
  | _ => false
  end.

(** ** The Python standard library

    The functions of [json], [str], [bytes], [re] and [urllib] that the
    scripts call are not part of the repository; the models take them as a
    record. *)
Record PyLib : Type := {
  (** [json.dumps(v)] *)
  json_dumps : value -> string;
  (** [json.dumps(v, indent=2)] *)
  json_dumps_indent2 : value -> string;
  (** [json.loads(s)]; raises [JSONDecodeError] on text that is not JSON *)
  json_loads : string -> result value;
  (** [s.encode("utf-8")] *)
  encode : string -> bytes;
  (** [b.decode()]; raises [UnicodeDecodeError] *)
  decode : bytes -> result string;
  (** [b.decode("utf-8", errors="replace")] *)
  decode_replace : bytes -> string;
  (** [repr(v)] of a [list] or a [dict] *)
  repr_container : value -> string;
  (** The meaning of one escape of an [re] replacement template: given the
      text after a backslash and the whole match, the text the escape
      stands for and how many characters after the backslash it uses. *)
  template_escape : string -> string -> result (string * nat);
  (** What [urllib.request.Request(url, ...)] does with the address: it
      raises [ValueError] when the address has no scheme *)
  check_url : string -> result unit
}.

(** [str(v)], as an f-string formats a value. *)
Definition py_str (py : PyLib) (v : value) : string :=
  match v with
  | VNone => "None"
  | VBool true => "True"
  | VBool false => "False"
  | VInt n => str_of_Z n
  | VFloat r => r
  | VStr s => s
  | VList _ | VDict _ => repr_container py v
  end.

(** ** The HTTP bridge: [mcp_http_wrapper.py] *)

Module Bridge.

Record McpHttpWrapper : Type := {
  command : string;
  args : list string;
  working_dir : option string
}.

(** An [aiohttp] request, seen through the one method the bridge calls:
    the outcome of [await request.json()]. *)
Record Request : Type := { request_json : result value }.

(** [web.json_response(body, status=...)] *)
Record Response : Type := { status : Z; body : value }.

Definition json_response (b : value) (st : Z) : Response :=
  {| status := st; body := b |}.

(** A child process as [asyncio] hands it back: [communicate] feeds the
    input, waits for the exit and yields the two captured streams;
    [returncode] is read afterwards. *)
Record Process : Type := {
  communicate : bytes -> result (bytes * bytes);
  returncode : Z
}.

(** [asyncio.create_subprocess_exec(command, *args, cwd=...)] *)
Definition OS : Type :=
  string -> list string -> option string -> result Process.

Inductive event : Type :=
| Spawn (cmd : string) (argv : list string) (cwd : option string)
| Stdin (input : bytes)
| Print (line : string).

(** The bridge object together with everything the handler did. *)
Record state : Type := {
  self : McpHttpWrapper;
  trace : list event
}.

Definition emit (e : event) : M state unit :=
  modify (fun s => {| self := self s; trace := trace s ++ [e] |}).

Definition error_body (id : value) (code : Z) (message : string) : value :=
  VDict [("jsonrpc", VStr "2.0");
         ("id", id);
         ("error", VDict [("code", VInt code); ("message", VStr message)])].

Definition error_body_no_id (code : Z) (message : string) : value :=
  VDict [("jsonrpc", VStr "2.0");
         ("error", VDict [("code", VInt code); ("message", VStr message)])].

Open Scope py_scope.

Definition handle_request (py : PyLib) (create_subprocess_exec : OS)
  (request : Request) : M state Response :=
  try_except
    (data <- lift (request_json request) ;;
     cmd <- gets (fun s => command (self s)) ;;
     argv <- gets (fun s => args (self s)) ;;
     cwd <- gets (fun s => working_dir (self s)) ;;
     emit (Spawn cmd argv cwd) ;;;
     proc <- lift (create_subprocess_exec cmd argv cwd) ;;
     let request_line := json_dumps py data ++ nl in
     emit (Stdin (encode py request_line)) ;;;
     out <- lift (communicate proc (encode py request_line)) ;;
     let '(stdout, stderr) := out in
     if negb (returncode proc =? 0)%Z then
       error_msg <- lift (match stderr with
                          | [] => Return "Process failed"
                          | _ => decode py stderr
                          end) ;;
       emit (Print ("ERROR: " ++ error_msg)) ;;;
       id <- lift (value_get data "id" VNone) ;;
       ret (json_response (error_body id (-32603) error_msg) 500)
     else
       try_except
         (text <- lift (decode py stdout) ;;
          response <- lift (json_loads py text) ;;
          ret (json_response response 200))
         (fun e =>
            match e with
            | JSONDecodeError _ =>
                Some (emit (Print ("JSON Parse Error: " ++ exn_str e)) ;;;
                      text <- lift (decode py stdout) ;;
                      emit (Print ("Raw stdout: " ++ text)) ;;;
                      id <- lift (value_get data "id" VNone) ;;
                      ret (json_response
                             (error_body id (-32700)
                                ("Parse error: " ++ exn_str e)) 500))
            | _ => None
            end))
    (fun e =>
       Some (emit (Print ("Exception: " ++ exn_str e)) ;;;
             ret (json_response
                    (error_body_no_id (-32603) (exn_str e)) 500))).

Close Scope py_scope.

(** Number of [create_subprocess_exec] calls in a trace. *)
Fixpoint spawns (t : list event) : nat :=
  match t with
  | [] => 0
  | Spawn _ _ _ :: t' => S (spawns t')
  | _ :: t' => spawns t'
  end.

End Bridge.

(** ** The reference backend: [MockMcpServer] of [test_http_wrapper.py] *)

Module MockBackend.

Record MockMcpServer : Type := { name : string }.

Definition string_property (description : string) : value :=
  VDict [("type", VStr "string"); ("description", VStr description)].

Definition number_property (description : string) : value :=
  VDict [("type", VStr "number"); ("description", VStr description)].

Definition tool (tool_name description : string) (properties : dict)
  (required : list string) : value :=
  VDict [("name", VStr tool_name);
         ("description", VStr description);
         ("inputSchema",
          VDict [("type", VStr "object");
                 ("properties", VDict properties);
                 ("required", VList (map VStr required))])].

(** [_get_tools] *)
Definition _get_tools (self : MockMcpServer) : value :=
  if String.eqb (name self) "semantic_scholar" then
    VList
      [tool "search_papers" "Search for papers in Semantic Scholar"
         [("query", string_property "Search query");
          ("year", string_property "Year or year range");
          ("limit", number_property "Max results")]
         ["query"];
       tool "get_paper_details" "Get detailed information about a paper"
         [("paper_id", string_property "Semantic Scholar paper ID")]
         ["paper_id"]]
  else if String.eqb (name self) "arxiv" then
    VList
      [tool "search_papers" "Search arXiv papers"
         [("query", string_property "Search query");
          ("max_results", number_property "Max results")]
         ["query"];
       tool "download_paper" "Download a paper by arXiv ID"
         [("arxiv_id", string_property "arXiv ID")]
         ["arxiv_id"]]
  else VList [].

(** [_execute_tool] *)
Definition _execute_tool (py : PyLib) (self : MockMcpServer)
  (tool_name arguments : value) : value :=
  if String.eqb (name self) "semantic_scholar"
     && value_is_str tool_name "search_papers" then
    VDict
      [("papers",
        VList
          [VDict [("paperId", VStr "abc123");
                  ("title", VStr "Attention Is All You Need");
                  ("authors", VList [VStr "Vaswani et al."]);
                  ("year", VInt 2017);
                  ("citationCount", VInt 85000);
                  ("abstract",
                   VStr "The dominant sequence transduction models...")];
           VDict [("paperId", VStr "def456");
                  ("title",
                   VStr "BERT: Pre-training of Deep Bidirectional Transformers");
                  ("authors", VList [VStr "Devlin et al."]);
                  ("year", VInt 2018);
                  ("citationCount", VInt 65000);
                  ("abstract",
                   VStr "We introduce a new language representation model...")]]);
       ("total", VInt 2)]
  else if String.eqb (name self) "arxiv"
          && value_is_str tool_name "search_papers" then
    VDict
      [("papers",
        VList
          [VDict [("id", VStr "2401.12345");
                  ("title", VStr "Latest Advances in Transformers");
                  ("authors", VList [VStr "Smith, J."; VStr "Doe, J."]);
                  ("published", VStr "2024-01-15");
                  ("summary",
                   VStr "We present recent improvements to transformer architecture...")]]);
       ("total", VInt 1)]
  else VDict [("error", VStr ("Unknown tool: " ++ py_str py tool_name))].

(** [handle_request]: the request is a [dict]. *)
Definition handle_request (py : PyLib) (self : MockMcpServer)
  (request : dict) : result value :=
  let method := dict_get request "method" VNone in
  let request_id := dict_get request "id" VNone in
  if value_is_str method "initialize" then
    Return
      (VDict
         [("jsonrpc", VStr "2.0");
          ("id", request_id);
          ("result",
           VDict [("protocolVersion", VStr "2024-11-05");
                  ("capabilities", VDict [("tools", VDict [])]);
                  ("serverInfo",
                   VDict [("name", VStr (name self));
                          ("version", VStr "0.1.0")])])])
  else if value_is_str method "tools/list" then
    let tools := _get_tools self in
    Return
      (VDict
         [("jsonrpc", VStr "2.0");
          ("id", request_id);
          ("result", VDict [("tools", tools)])])
  else if value_is_str method "tools/call" then
    match value_get (dict_get request "params" (VDict [])) "name" VNone with
    | Raise e => Raise e
    | Return tool_name =>
        match value_get (dict_get request "params" (VDict []))
                "arguments" (VDict []) with
        | Raise e => Raise e
        | Return arguments =>
            let result := _execute_tool py self tool_name arguments in
            Return
              (VDict
                 [("jsonrpc", VStr "2.0");
                  ("id", request_id);
                  ("result",
                   VDict
                     [("content",
                       VList
                         [VDict
                            [("type", VStr "text");
                             ("text",
                              VStr (json_dumps_indent2 py result))]])])])
        end
    end
  else
    Return
      (VDict
         [("jsonrpc", VStr "2.0");
          ("id", request_id);
          ("error",
           VDict [("code", VInt (-32601));
                  ("message", VStr ("Unknown method: " ++ py_str py method))])]).

End MockBackend.

(** ** The job-side client: [ironclaw_tools.py] *)

Module Tools.

(** What [urllib.request.Request(url, data=..., headers=..., method=...)]
    is given. *)
Record UrlRequest : Type := {
  url : string;
  data : bytes;
  headers : list (string * string);
  http_method : string
}.

(** A finite [float]: a signed zero, or [(-1)^s * m * 2^e]. *)
Inductive finite_float : Type :=
| FZero (s : bool)
| FFinite (s : bool) (m : positive) (e : Z).

(** What a caller passes as [timeout_secs]: an [int] or a finite [float].
    Infinities, NaN and values that are no numbers, on which
    [int(timeout_secs)] raises, are left out. *)
Inductive number : Type :=
| NInt (n : Z)
| NFloat (f : finite_float).

(** [int(t)]: an [int] is itself, a [float] is cut toward zero. *)
Definition py_int (t : number) : Z :=
  match t with
  | NInt n => n
  | NFloat (FZero _) => 0%Z
  | NFloat (FFinite s m e) =>
      cond_Zopp s
        match e with
        | Zneg p => Z.shiftr (Zpos m) (Zpos p)
        | _ => (Zpos m * 2 ^ e)%Z
        end
  end.

(** [bool(t)]: only zero is falsy. *)
Definition number_truthy (t : number) : bool :=
  match t with
  | NInt n => negb (n =? 0)%Z
  | NFloat (FZero _) => false
  | NFloat (FFinite _ _ _) => true
  end.

(** Binary64 arithmetic: the [float] nearest to an integer times a power
    of two, the value of a finite [float], and addition. *)
Definition binary64 (m e : Z) : spec_float :=
  binary_normalize 53 1024 m e false.

Definition float_value (f : finite_float) : spec_float :=
  match f with
  | FZero s => S754_zero s
  | FFinite s m e => S754_finite s m e
  end.

Definition float_add (x y : spec_float) : spec_float := SFadd 53 1024 x y.

(** A time in seconds as [urlopen] is given it: an [int] or a
    [float]. *)
Inductive seconds : Type :=
| SInt (n : Z)
| SFloat (f : spec_float).

(** The process environment and the network.  [urlopen req timeout] is the
    outcome of opening the request and reading the whole response: the body
    of a 2xx answer, or the exception [urllib] raises ([HTTPError] for any
    other status, [URLError] when no answer arrives). *)
Record Env : Type := {
  environ : string -> option string;
  urlopen : UrlRequest -> seconds -> result bytes
}.

(** Every call of [urlopen], in order. *)
Definition netlog : Type := list (UrlRequest * seconds).

Definition missing_message (name : string) : string :=
  "Missing required environment variable: " ++ name
  ++ ". This SDK must be run inside an IronClaw container.".

(** [_env] *)
Definition _env (env : Env) (name : string) : result string :=
  match environ env name with
  | None => Raise (RuntimeError (missing_message name))
  | Some v =>
      if String.eqb v EmptyString
      then Raise (RuntimeError (missing_message name))
      else Return v
  end.

(** [s.rstrip(c)] for a one-character set. *)
Fixpoint rstrip (c : ascii) (s : string) : string :=
  match s with
  | EmptyString => EmptyString
  | String a s' =>
      match rstrip c s' with
      | EmptyString => if Ascii.eqb a c then EmptyString
                       else String a EmptyString
      | r => String a r
      end
  end.

(** [_base_url] *)
Definition _base_url (env : Env) : result string :=
  match _env env "IRONCLAW_ORCHESTRATOR_URL" with
  | Raise e => Raise e
  | Return u =>
      let orchestrator := rstrip "/"%char u in
      match _env env "IRONCLAW_JOB_ID" with
      | Raise e => Raise e
      | Return job_id => Return (orchestrator ++ "/worker/" ++ job_id)
      end
  end.

(** [_token] *)
Definition _token (env : Env) : result string :=
  _env env "IRONCLAW_WORKER_TOKEN".

(** [urllib.request.Request(url, data=data, headers=headers,
    method=method)]: the constructor reads the address and raises when it
    finds no scheme; otherwise the request holds what it was given. *)
Definition new_request (py : PyLib) (url : string) (data : bytes)
  (headers : list (string * string)) (method : string)
  : result UrlRequest :=
  match check_url py url with
  | Raise e => Raise e
  | Return _ =>
      Return {| url := url; data := data; headers := headers;
                http_method := method |}
  end.

Open Scope py_scope.

(** The [body] dictionary [call_tool] builds before serialising it. *)
Definition request_body (name : string) (params : value)
  (timeout_secs : option number) : dict :=
  let body := [("tool_name", VStr name);
               ("parameters", if truthy params then params else VDict [])] in
  match timeout_secs with
  | Some t => dict_set body "timeout_secs" (VInt (Z.min (py_int t) 300))
  | None => body
  end.

(** [(timeout_secs or 60) + 5]; adding the [int] 5 to a [float] is a
    binary64 addition. *)
Definition transport_timeout (timeout_secs : option number) : seconds :=
  match timeout_secs with
  | None => SInt (60 + 5)
  | Some (NInt n) => SInt ((if (n =? 0)%Z then 60 else n) + 5)
  | Some (NFloat f) =>
      if number_truthy (NFloat f)
      then SFloat (float_add (float_value f) (binary64 5 0))
      else SInt (60 + 5)
  end.

(** [call_tool]: [params] is [VNone] when the argument is left out, and
    [timeout_secs] is [None] when it is. *)
Definition call_tool (py : PyLib) (env : Env) (name : string)
  (params : value) (timeout_secs : option number) : M netlog value :=
  base <- lift (_base_url env) ;;
  let url := base ++ "/tools/call" in
  let body := request_body name params timeout_secs in
  let data := encode py (json_dumps py (VDict body)) in
  token <- lift (_token env) ;;
  req <- lift (new_request py url data
                 [("Content-Type", "application/json");
                  ("Authorization", "Bearer " ++ token)]
                 "POST") ;;
  result <-
    try_except
      (let timeout := transport_timeout timeout_secs in
       modify (fun log => (log ++ [(req, timeout)])%list) ;;;
       raw <- lift (urlopen env req timeout) ;;
       text <- lift (decode py raw) ;;
       lift (json_loads py text))
      (fun e =>
         match e with
         | HTTPError code _ fp =>
             let body_text := match fp with
                              | Some b => decode_replace py b
                              | None => EmptyString
                              end in
             Some (raise (RuntimeError
                            ("Tool call failed: HTTP " ++ str_of_Z code
                             ++ ": " ++ body_text)))
         | URLError reason =>
             Some (raise (RuntimeError
                            ("Connection to orchestrator failed: " ++ reason)))
         | _ => None
         end) ;;
  success <- lift (value_get result "success" VNone) ;;
  if negb (truthy success) then
    err <- lift (value_get result "error" (VStr "unknown error")) ;;
    raise (RuntimeError
             ("Tool '" ++ name ++ "' failed: " ++ py_str py err))
  else
    lift (value_get result "output" (VStr EmptyString)).

(** [shell], [read_file], [write_file], [http_get].  A caller who leaves
    [timeout_secs] out passes the default of the signature: 60 for [shell],
    30 for [http_get]; [hdrs] is [VNone] when [headers] is left out. *)
Definition shell_default_timeout : option number := Some (NInt 60).

Definition http_get_default_timeout : option number := Some (NInt 30).

Definition shell (py : PyLib) (env : Env) (command : string)
  (timeout_secs : option number) : M netlog value :=
  call_tool py env "shell" (VDict [("command", VStr command)]) timeout_secs.

Definition read_file (py : PyLib) (env : Env) (path : string)
  : M netlog value :=
  call_tool py env "read_file" (VDict [("path", VStr path)]) None.

Definition write_file (py : PyLib) (env : Env) (path content : string)
  : M netlog value :=
  call_tool py env "write_file"
    (VDict [("path", VStr path); ("content", VStr content)]) None.

Definition http_get (py : PyLib) (env : Env) (target : string)
  (hdrs : value) (timeout_secs : option number) : M netlog value :=
  let params := [("url", VStr target); ("method", VStr "GET")] in
  let params := if truthy hdrs then dict_set params "headers" hdrs
                else params in
  call_tool py env "http" (VDict params) timeout_secs.

Close Scope py_scope.

(** The three connection parameters. *)
Definition required_variables : list string :=
  ["IRONCLAW_ORCHESTRATOR_URL"; "IRONCLAW_JOB_ID"; "IRONCLAW_WORKER_TOKEN"].

(** [name] is unset, or set to the empty string. *)
Definition missing (env : Env) (name : string) : Prop :=
  environ env name = None \/ environ env name = Some EmptyString.

(** The call gets as far as the network: the three variables are set and
    [Request] accepts the address built from them. *)
Definition reaches_network (py : PyLib) (env : Env) : Prop :=
  exists base token,
    _base_url env = Return base
    /\ _token env = Return token
    /\ check_url py (base ++ "/tools/call") = Return tt.

End Tools.

(** ** The markdown auto-block updater: [update_feature_parity.py] *)

Module Parity.

Definition START_MARKER : string := "<!-- parity:auto:start -->".
Definition END_MARKER : string := "<!-- parity:auto:end -->".

(** [build_auto_block] *)
Definition build_auto_block (sync_sha pr_number : string) : string :=
  START_MARKER ++ nl
  ++ "> Auto-synced for PR #" ++ pr_number
  ++ " at commit `" ++ sync_sha ++ "`." ++ nl
  ++ "> Managed by `.github/workflows/update-feature-parity.yml`." ++ nl
  ++ END_MARKER ++ nl.

(** *** [str.splitlines(keepends=True)] on UTF-8 text *)

Definition is_code (n : nat) (c : ascii) : bool :=
  Nat.eqb (nat_of_ascii c) n.

(** The line boundary [s] starts with, if any, and what follows it:
    CR LF, CR, LF, VT, FF, FS, GS, RS, NEL (C2 85), LS and PS
    (E2 80 A8, E2 80 A9). *)
Definition line_end (s : string) : option (string * string) :=
  match s with
  | EmptyString => None
  | String c s1 =>
      if is_code 13 c then
        match s1 with
        | String d s2 =>
            if is_code 10 d
            then Some (String c (String d EmptyString), s2)
            else Some (String c EmptyString, s1)
        | EmptyString => Some (String c EmptyString, s1)
        end
      else if is_code 10 c || is_code 11 c || is_code 12 c
              || is_code 28 c || is_code 29 c || is_code 30 c then
        Some (String c EmptyString, s1)
      else if is_code 194 c then
        match s1 with
        | String d s2 =>
            if is_code 133 d
            then Some (String c (String d EmptyString), s2)
            else None
        | EmptyString => None
        end
      else if is_code 226 c then
        match s1 with
        | String d (String e s3) =>
            if is_code 128 d && (is_code 168 e || is_code 169 e)
            then Some (String c (String d (String e EmptyString)), s3)
            else None
        | _ => None
        end
      else None
  end.

(** The first line of [s] with its line boundary, and the rest. *)
Fixpoint first_line (s : string) : string * string :=
  match line_end s with
  | Some (t, rest) => (t, rest)
  | None =>
      match s with
      | EmptyString => (EmptyString, EmptyString)
      | String c s' => let (l, r) := first_line s' in (String c l, r)
      end
  end.

Fixpoint splitlines_fuel (fuel : nat) (s : string) : list string :=
  match fuel with
  | O => []
  | S fuel' =>
      match s with
      | EmptyString => []
      | _ => let (l, r) := first_line s in l :: splitlines_fuel fuel' r
      end
  end.

(** Every line takes at least one character, so [length s] rounds are
    enough (see [join_splitlines]). *)
Definition splitlines (s : string) : list string :=
  splitlines_fuel (String.length s) s.

(** [sep.join(lines)] for the empty separator. *)
Definition join (lines : list string) : string :=
  fold_right String.append EmptyString lines.

(** [line.strip() == ""]: nothing but white space, read off the UTF-8
    encoding: U+0009..000D, U+001C..0020, U+0085, U+00A0, U+1680,
    U+2000..200A, U+2028, U+2029, U+202F, U+205F, U+3000. *)
Fixpoint all_whitespace (s : string) : bool :=
  match s with
  | EmptyString => true
  | String c s1 =>
      let n := nat_of_ascii c in
      if (Nat.leb 9 n && Nat.leb n 13) || (Nat.leb 28 n && Nat.leb n 32)
      then all_whitespace s1
      else
        match s1 with
        | EmptyString => false
        | String d s2 =>
            let m := nat_of_ascii d in
            if Nat.eqb n 194 && (Nat.eqb m 133 || Nat.eqb m 160)
            then all_whitespace s2
            else
              match s2 with
              | EmptyString => false
              | String e s3 =>
                  let k := nat_of_ascii e in
                  if (Nat.eqb n 225 && Nat.eqb m 154 && Nat.eqb k 128)
                     || (Nat.eqb n 226 && Nat.eqb m 128
                         && ((Nat.leb 128 k && Nat.leb k 138)
                             || Nat.eqb k 168 || Nat.eqb k 169
                             || Nat.eqb k 175))
                     || (Nat.eqb n 226 && Nat.eqb m 129 && Nat.eqb k 159)
                     || (Nat.eqb n 227 && Nat.eqb m 128 && Nat.eqb k 128)
                  then all_whitespace s3
                  else false
              end
        end
  end.

(** Index of the first line that starts with ["# "]. *)
Fixpoint title_index (lines : list string) : option nat :=
  match lines with
  | [] => None
  | line :: rest =>
      if String.prefix "# " line then Some 0
      else option_map S (title_index rest)
  end.

(** [insert_block_after_title] *)
Definition insert_block_after_title (content block : string) : string :=
  let lines := splitlines content in
  match title_index lines with
  | None =>
      if String.eqb content EmptyString then block
      else block ++ nl ++ content
  | Some idx =>
      let insert_at := idx + 1 in
      let insert_at :=
        match nth_error lines insert_at with
        | Some line => if all_whitespace line then insert_at + 1
                       else insert_at
        | None => insert_at
        end in
      let block_with_spacing := nl ++ block ++ nl in
      join (firstn insert_at lines ++ [block_with_spacing]
            ++ skipn insert_at lines)%list
  end.

(** *** The compiled pattern

    [re.escape(START_MARKER) + ".*?" + re.escape(END_MARKER) + "\n?"] with
    [re.DOTALL]: the start marker, as few characters of any kind as
    possible, the end marker, and one line feed if it follows. *)

(** [s] without its prefix [p], when it has that prefix. *)
Fixpoint strip_prefix (p s : string) : option string :=
  match p, s with
  | EmptyString, _ => Some s
  | String _ _, EmptyString => None
  | String a p', String b s' =>
      if Ascii.eqb a b then strip_prefix p' s' else None
  end.

(** [".*?" + END_MARKER + "\n?"] matched at the head of [s]: the matched
    text and the rest.  The lazy star gives up one more character only
    when the end marker does not match where it stands. *)
Fixpoint lazy_to_end (s : string) : option (string * string) :=
  match strip_prefix END_MARKER s with
  | Some rest =>
      match strip_prefix nl rest with
      | Some rest' => Some (END_MARKER ++ nl, rest')
      | None => Some (END_MARKER, rest)
      end
  | None =>
      match s with
      | EmptyString => None
      | String c s' =>
          match lazy_to_end s' with
          | Some (m, rest) => Some (String c m, rest)
          | None => None
          end
      end
  end.

(** The whole pattern matched at the head of [s]. *)
Definition match_here (s : string) : option (string * string) :=
  match strip_prefix START_MARKER s with
  | Some rest =>
      match lazy_to_end rest with
      | Some (m, rest') => Some (START_MARKER ++ m, rest')
      | None => None
      end
  | None => None
  end.

(** [pattern.search(s)]: the leftmost match, as the text before it, the
    match and the text after it. *)
Fixpoint search (s : string) : option (string * string * string) :=
  match match_here s with
  | Some (m, rest) => Some (EmptyString, m, rest)
  | None =>
      match s with
      | EmptyString => None
      | String c s' =>
          match search s' with
          | Some (before, m, rest) => Some (String c before, m, rest)
          | None => None
          end
      end
  end.

Definition backslash : ascii := ascii_of_nat 92.

(** The replacement template of [pattern.sub] expanded for the match [m]:
    a character other than a backslash stands for itself, and the library
    gives the meaning of each escape.  [skip] counts the characters still
    owed to the last escape. *)
Fixpoint expand_template (py : PyLib) (skip : nat) (template m : string)
  : result string :=
  match template with
  | EmptyString => Return EmptyString
  | String c t' =>
      match skip with
      | S k => expand_template py k t' m
      | O =>
          if Ascii.eqb c backslash then
            match template_escape py t' m with
            | Raise e => Raise e
            | Return (out, used) =>
                match expand_template py used t' m with
                | Raise e => Raise e
                | Return r => Return (out ++ r)
                end
            end
          else
            match expand_template py O t' m with
            | Raise e => Raise e
            | Return r => Return (String c r)
            end
      end
  end.

(** [update_content] *)
Definition update_content (py : PyLib) (content sync_sha pr_number : string)
  : result string :=
  let block := build_auto_block sync_sha pr_number in
  match search content with
  | Some (before, m, rest) =>
      match expand_template py O block m with
      | Raise e => Raise e
      | Return replacement => Return (before ++ replacement ++ rest)
      end
  | None => Return (insert_block_after_title content block)
  end.

(** [os.getenv(name, default)] *)
Definition getenv (environ : string -> option string) (name default : string)
  : string :=
  match environ name with
  | Some v => v
  | None => default
  end.

(** The files of the working directory, by path: each file as the text
    [Path.read_text] returns for it, with line feeds as line ends, which is
    also what [Path.write_text] stores on POSIX. *)
Definition files : Type := string -> option string.

Definition write_text (path text : string) : M files unit :=
  modify (fun fs p => if String.eqb p path then Some text else fs p).

Definition read_text (path : string) : M files string :=
  fun fs => match fs path with
            | Some text => (Return text, fs)
            | None => (Raise (OtherError "FileNotFoundError" path), fs)
            end.

Open Scope py_scope.

(** [main] *)
Definition main (py : PyLib) (environ : string -> option string)
  : M files Z :=
  let parity_path := getenv environ "FEATURE_PARITY_PATH" "FEATURE_PARITY.md" in
  let sync_sha := getenv environ "PARITY_SYNC_SHA" "unknown" in
  let pr_number := getenv environ "PARITY_PR_NUMBER" "unknown" in
  content <- read_text parity_path ;;
  updated <- lift (update_content py content sync_sha pr_number) ;;
  (if negb (String.eqb updated content)
   then write_text parity_path updated
   else ret tt) ;;;
  ret 0%Z.

Close Scope py_scope.

(** [p in s] *)
Fixpoint contains (p s : string) : bool :=
  match strip_prefix p s with
  | Some _ => true
  | None =>
      match s with
      | EmptyString => false
      | String _ s' => contains p s'
      end
  end.

End Parity.

(** ** A small standard library for the examples

    The properties below hold for every [PyLib].  The worked examples need
    one to compute with; this one agrees with Python on the printable-ASCII
    values the examples use. *)

Module Examples.

Definition dq : string := String (ascii_of_nat 34) EmptyString.

(** [json.dumps] with the default separators; strings are written between
    quotes as they are (no character of the examples needs an escape). *)
Fixpoint dumps (v : value) : string :=
  match v with
  | VNone => "null"
  | VBool true => "true"
  | VBool false => "false"
  | VInt n => str_of_Z n
  | VFloat r => r
  | VStr s => dq ++ s ++ dq
  | VList l =>
      "["
      ++ (fix items (l : list value) : string :=
            match l with
            | [] => EmptyString
            | [x] => dumps x
            | x :: rest => dumps x ++ ", " ++ items rest
            end) l
      ++ "]"
  | VDict d =>
      "{"
      ++ (fix members (d : list (string * value)) : string :=
            match d with
            | [] => EmptyString
            | [(k, x)] => dq ++ k ++ dq ++ ": " ++ dumps x
            | (k, x) :: rest =>
                dq ++ k ++ dq ++ ": " ++ dumps x ++ ", " ++ members rest
            end) d
      ++ "}"
  end.

(** [repr] of a value, strings between single quotes. *)
Fixpoint repr (v : value) : string :=
  match v with
  | VNone => "None"
  | VBool true => "True"
  | VBool false => "False"
  | VInt n => str_of_Z n
  | VFloat r => r
  | VStr s => "'" ++ s ++ "'"
  | VList l =>
      "["
      ++ (fix items (l : list value) : string :=
            match l with
            | [] => EmptyString
            | [x] => repr x
            | x :: rest => repr x ++ ", " ++ items rest
            end) l
      ++ "]"
  | VDict d =>
      "{"
      ++ (fix members (d : list (string * value)) : string :=
            match d with
            | [] => EmptyString
            | [(k, x)] => "'" ++ k ++ "': " ++ repr x
            | (k, x) :: rest =>
                "'" ++ k ++ "': " ++ repr x ++ ", " ++ members rest
            end) d
      ++ "}"
  end.

(** [json.dumps(v, indent=2)]: [pad] is the indentation of the enclosing
    line. *)
Fixpoint dumps_indent (pad : string) (v : value) : string :=
  match v with
  | VList [] => "[]"
  | VDict [] => "{}"
  | VList l =>
      "[" ++ nl
      ++ (fix items (l : list value) : string :=
            match l with
            | [] => EmptyString
            | [x] => pad ++ "  " ++ dumps_indent (pad ++ "  ") x
            | x :: rest =>
                pad ++ "  " ++ dumps_indent (pad ++ "  ") x ++ "," ++ nl
                ++ items rest
            end) l
      ++ nl ++ pad ++ "]"
  | VDict d =>
      "{" ++ nl
      ++ (fix members (d : list (string * value)) : string :=
            match d with
            | [] => EmptyString
            | [(k, x)] =>
                pad ++ "  " ++ dq ++ k ++ dq ++ ": "
                ++ dumps_indent (pad ++ "  ") x
            | (k, x) :: rest =>
                pad ++ "  " ++ dq ++ k ++ dq ++ ": "
                ++ dumps_indent (pad ++ "  ") x ++ "," ++ nl ++ members rest
            end) d
      ++ nl ++ pad ++ "}"
  | _ => dumps v
  end.

(** A parser that knows finitely many documents: the text [dumps v] of a
    document [v] of the table reads back as [v]; any other text is refused
    the way [json.loads] refuses text that starts no JSON value, also text
    that Python reads, such as a document followed by a line feed. *)
Definition loads (documents : list value) (s : string) : result value :=
  match find (fun v => String.eqb (dumps v) s) documents with
  | Some v => Return v
  | None => Raise (JSONDecodeError "Expecting value: line 1 column 1 (char 0)")
  end.

Definition is_ascii (b : byte) : bool := (Byte.to_N b <? 128)%N.

(** UTF-8 decoding of ASCII bytes; a byte above 127 is refused.  The
    message is cut short: Python goes on with the byte, its position and
    the reason. *)
Definition decode_ascii (b : bytes) : result string :=
  if forallb is_ascii b then Return (string_of_list_byte b)
  else Raise (UnicodeDecodeError "'utf-8' codec can't decode bytes").

(** With [errors="replace"]: U+FFFD (EF BF BD) for each refused byte. *)
Definition decode_ascii_replace (b : bytes) : string :=
  string_of_list_byte
    (flat_map (fun x => if is_ascii x then [x]
                        else [Byte.xef; Byte.xbf; Byte.xbd]) b).

(** The escapes of a replacement template that name one character, and
    [\g<0>] for the whole match.  Octal escapes and references to numbered
    groups are left out of this small library: it refuses them, as it
    refuses the letters Python refuses. *)
Definition escape (t m : string) : result (string * nat) :=
  match t with
  | String c _ =>
      let one (n : nat) := Return (String (ascii_of_nat n) EmptyString, 1) in
      if Ascii.eqb c "\"%char then one 92
      else if Ascii.eqb c "n"%char then one 10
      else if Ascii.eqb c "r"%char then one 13
      else if Ascii.eqb c "t"%char then one 9
      else if Ascii.eqb c "a"%char then one 7
      else if Ascii.eqb c "b"%char then one 8
      else if Ascii.eqb c "f"%char then one 12
      else if Ascii.eqb c "v"%char then one 11
      else if String.prefix "g<0>" t then Return (m, 4)
      else Raise (ReError "bad escape")
  | EmptyString => Raise (ReError "bad escape (end of pattern)")
  end.

(** [Request] looks for a scheme: characters other than [/] and [:], at
    least one, and then a colon.  The address is read as it stands; the
    white space, angle brackets, [URL:] prefix and fragment that [urllib]
    removes first do not occur in the examples. *)
Fixpoint has_scheme (seen : bool) (url : string) : bool :=
  match url with
  | EmptyString => false
  | String c rest =>
      if Ascii.eqb c ":"%char then seen
      else if Ascii.eqb c "/"%char then false
      else has_scheme true rest
  end.

Definition check_scheme (url : string) : result unit :=
  if has_scheme false url then Return tt
  else Raise (OtherError "ValueError" ("unknown url type: '" ++ url ++ "'")).

Definition python (documents : list value) : PyLib :=
  {| json_dumps := dumps;
     json_dumps_indent2 := dumps_indent EmptyString;
     json_loads := loads documents;
     encode := list_byte_of_string;
     decode := decode_ascii;
     decode_replace := decode_ascii_replace;
     repr_container := repr;
     template_escape := escape;
     check_url := check_scheme |}.

End Examples.

(** ** Concrete requests, backends and documents for the worked examples *)

Module Scenario.

Import Bridge.

Definition ascii_bytes (s : string) : bytes := list_byte_of_string s.

(** The Semantic Scholar bridge that [main] configures (no checkout found,
    so no working directory). *)
Definition semantic_scholar : McpHttpWrapper :=
  {| command := "python";
     args := ["semantic_scholar_server.py"];
     working_dir := None |}.

Definition fresh : state := {| self := semantic_scholar; trace := [] |}.

(** [{"jsonrpc": "2.0", "method": "initialize", "id": 7, "params": {}}] *)
Definition initialize7_members : dict :=
  [("jsonrpc", VStr "2.0");
   ("method", VStr "initialize");
   ("id", VInt 7);
   ("params", VDict [])].

Definition initialize7 : value := VDict initialize7_members.

(** The same call sent as a JSON-RPC batch of one. *)
Definition batch7 : value := VList [initialize7].

Definition request_of (v : value) : Request := {| request_json := Return v |}.

(** A backend that has been started and, whatever it is fed, writes [out]
    and [err] and exits with [code]. *)
Definition backend (out err : bytes) (code : Z) : Process :=
  {| communicate := fun _ => Return (out, err); returncode := code |}.

Definition running (p : Process) : OS := fun _ _ _ => Return p.

(** No such program on the path. *)
Definition not_installed : OS :=
  fun cmd _ _ =>
    Raise (OtherError "FileNotFoundError"
             ("[Errno 2] No such file or directory: '" ++ cmd ++ "'")).

(** [{"jsonrpc": "2.0", "id": 7, "result": {}}] *)
Definition answer7 : value :=
  VDict [("jsonrpc", VStr "2.0"); ("id", VInt 7); ("result", VDict [])].

(** [{"success": true, "output": "hello", "duration_ms": 5,
      "was_sanitized": false}] *)
Definition echo_answer : value :=
  VDict [("success", VBool true);
         ("output", VStr "hello");
         ("duration_ms", VInt 5);
         ("was_sanitized", VBool false)].

Definition python : PyLib := Examples.python [answer7; echo_answer].

(** The environment of a job container. *)
Definition job_environment (name : string) : option string :=
  if String.eqb name "IRONCLAW_ORCHESTRATOR_URL"
  then Some "http://localhost:50051"
  else if String.eqb name "IRONCLAW_JOB_ID"
  then Some "550e8400-e29b-41d4-a716-446655440000"
  else if String.eqb name "IRONCLAW_WORKER_TOKEN"
  then Some "test-token-123"
  else None.

(** An orchestrator that answers every call with [echo_answer]. *)
Definition orchestrator : Tools.Env :=
  {| Tools.environ := job_environment;
     Tools.urlopen :=
       fun _ _ => Return (ascii_bytes (Examples.dumps echo_answer)) |}.

(** Outside a container: none of the variables is set. *)
Definition outside_container : Tools.Env :=
  {| Tools.environ := fun _ => None;
     Tools.urlopen :=
       fun _ _ => Raise (URLError "[Errno 111] Connection refused") |}.

(** [{"message": "hello"}] *)
Definition hello : value := VDict [("message", VStr "hello")].

(** [{"jsonrpc": "2.0", "method": "unknown_method", "id": 99}] *)
Definition unknown99 : dict :=
  [("jsonrpc", VStr "2.0");
   ("method", VStr "unknown_method");
   ("id", VInt 99)].

(** A parity document as the tests write it: a title, a blank line, a
    paragraph. *)
Definition parity_document : string :=
  "# IronClaw Feature Parity Matrix" ++ nl ++ nl
  ++ "Existing content." ++ nl.

(** A document whose title quotes the start marker and that has no end
    marker. *)
Definition dangling_title : string := "# " ++ Parity.START_MARKER ++ nl.

(** [a\nb], written with a backslash and the letter [n]. *)
Definition sha_with_escape : string :=
  "a" ++ String Parity.backslash "nb".

(** The [error] member of a response body, and the [id] member when the
    body has one. *)
Definition error_member (r : Response) (k : string) : value :=
  match body r with
  | VDict d =>
      match dict_get d "error" VNone with
      | VDict e => dict_get e k VNone
      | _ => VNone
      end
  | _ => VNone
  end.

Definition id_member (r : Response) : option value :=
  match body r with
  | VDict d => if dict_mem d "id" then Some (dict_get d "id" VNone) else None
  | _ => None
  end.

(** A body that is not JSON: what [await request.json()] raises. *)
Definition malformed_request : Request :=
  {| request_json :=
       Raise (JSONDecodeError "Expecting value: line 1 column 1 (char 0)") |}.

(** One byte that is no UTF-8 text: [e9], an e with acute accent in
    Latin-1. *)
Definition latin1_bytes : bytes := [Byte.xe9].

(** The job environment with a trailing slash on the base address. *)
Definition job_environment_slash (name : string) : option string :=
  if String.eqb name "IRONCLAW_ORCHESTRATOR_URL"
  then Some "http://localhost:50051/"
  else job_environment name.

(** [{}], and a library that can read it. *)
Definition empty_answer : value := VDict [].

Definition python_empty : PyLib := Examples.python [empty_answer].

(** An orchestrator that answers every call with [{}], and one that
    answers with text that is not JSON. *)
Definition laconic_orchestrator : Tools.Env :=
  {| Tools.environ := job_environment;
     Tools.urlopen :=
       fun _ _ => Return (ascii_bytes (Examples.dumps empty_answer)) |}.

Definition garbled_orchestrator : Tools.Env :=
  {| Tools.environ := job_environment;
     Tools.urlopen := fun _ _ => Return (ascii_bytes "oops") |}.

(** A document that already holds an auto block, with a stale line. *)
Definition stale_document : string :=
  "# IronClaw Feature Parity Matrix" ++ nl ++ nl
  ++ Parity.START_MARKER ++ nl ++ "stale" ++ nl ++ Parity.END_MARKER ++ nl
  ++ nl ++ "Existing content." ++ nl.

(** [{"success": true, "output": 5}], a library that can read it, and an
    orchestrator that answers every call with it. *)
Definition numeric_answer : value :=
  VDict [("success", VBool true); ("output", VInt 5)].

Definition python_numeric : PyLib := Examples.python [numeric_answer].

Definition counting_orchestrator : Tools.Env :=
  {| Tools.environ := job_environment;
     Tools.urlopen :=
       fun _ _ => Return (ascii_bytes (Examples.dumps numeric_answer)) |}.

(** A container whose orchestrator address has no scheme. *)
Definition schemeless_environment (name : string) : option string :=
  if String.eqb name "IRONCLAW_ORCHESTRATOR_URL"
  then Some "orchestrator.internal"
  else job_environment name.

Definition schemeless_container : Tools.Env :=
  {| Tools.environ := schemeless_environment;
     Tools.urlopen := Tools.urlopen orchestrator |}.

(** The float [30.5], which is [61 * 2^47 * 2^-48]. *)
Definition thirty_and_a_half : Tools.finite_float :=
  Tools.FFinite false 8584986789675008 (-48).

End Scenario.

(** * Properties *)

(** ** The HTTP bridge *)

Section BridgeProperties.

Import Bridge.

Variable py : PyLib.
Variable os : OS.

(** Unfold the monad and compute. *)
Ltac run :=
  unfold handle_request, try_except, bind, lift, gets, emit, modify, ret,
    json_response; simpl.

(** C1 (as amended).  For every inbound body that parses as a JSON object,
    if the backend has been started, exits with a non-zero code, and its
    diagnostic bytes are empty or decode as text, the bridge answers
    HTTP 500 with a JSON-RPC error of code -32603 whose message is the
    decoded diagnostic text, or ["Process failed"] when there are no
    diagnostic bytes, and whose id is the id of the inbound object
    ([null] when it has none). *)
Theorem nonzero_exit_internal_error (request : Request) (st : state)
  (d : dict) (proc : Process) (out err : bytes) (message : string) :
  request_json request = Return (VDict d) ->
  os (command (self st)) (args (self st)) (working_dir (self st))
    = Return proc ->
  communicate proc (encode py (json_dumps py (VDict d) ++ nl))
    = Return (out, err) ->
  returncode proc <> 0%Z ->
  match err with
  | [] => message = "Process failed"
  | _ => decode py err = Return message
  end ->
  fst (handle_request py os request st)
  = Return {| status := 500;
              body := error_body (dict_get d "id" VNone) (-32603) message |}.
Proof.
  intros Hjson Hos Hcomm Hcode Herr.
  run. rewrite Hjson. simpl. rewrite Hos. simpl. rewrite Hcomm. simpl.
  apply Z.eqb_neq in Hcode. rewrite Hcode. simpl.
  destruct err as [|b err'].
  - subst message. reflexivity.
  - rewrite Herr. reflexivity.
Qed.

(** X2.  Diagnostic bytes that do not decode send the handler to its
    catch-all clause: the message is the decoder's and the id is left
    out. *)
Lemma nonzero_exit_undecodable_stderr (request : Request) (st : state)
  (data : value) (proc : Process) (out err : bytes) (e : exn) :
  request_json request = Return data ->
  os (command (self st)) (args (self st)) (working_dir (self st))
    = Return proc ->
  communicate proc (encode py (json_dumps py data ++ nl))
    = Return (out, err) ->
  returncode proc <> 0%Z ->
  err <> [] ->
  decode py err = Raise e ->
  fst (handle_request py os request st)
  = Return {| status := 500;
              body := error_body_no_id (-32603) (exn_str e) |}.
Proof.
  intros Hjson Hos Hcomm Hcode Hne Herr.
  run. rewrite Hjson. simpl. rewrite Hos. simpl. rewrite Hcomm. simpl.
  apply Z.eqb_neq in Hcode. rewrite Hcode. simpl.
  destruct err as [|b err']; [congruence|].
  rewrite Herr. reflexivity.
Qed.

(** C2 (as amended).  For every inbound body that parses as a JSON object,
    if the backend has been started, exits with code zero, and its output
    bytes decode as text that the JSON parser refuses, the bridge answers
    HTTP 500 with a JSON-RPC error of code -32700 whose message is
    ["Parse error: "] followed by the parser's description, and whose id
    is the id of the inbound object. *)
Theorem unparsable_output_parse_error (request : Request) (st : state)
  (d : dict) (proc : Process) (out err : bytes) (text why : string) :
  request_json request = Return (VDict d) ->
  os (command (self st)) (args (self st)) (working_dir (self st))
    = Return proc ->
  communicate proc (encode py (json_dumps py (VDict d) ++ nl))
    = Return (out, err) ->
  returncode proc = 0%Z ->
  decode py out = Return text ->
  json_loads py text = Raise (JSONDecodeError why) ->
  fst (handle_request py os request st)
  = Return {| status := 500;
              body := error_body (dict_get d "id" VNone) (-32700)
                        ("Parse error: " ++ why) |}.
Proof.
  intros Hjson Hos Hcomm Hcode Hdec Hloads.
  run. rewrite Hjson. simpl. rewrite Hos. simpl. rewrite Hcomm. simpl.
  rewrite Hcode. simpl. rewrite Hdec. simpl. rewrite Hloads. reflexivity.
Qed.

(** X3.  Output bytes that do not decode never reach the parser: the
    exception ends in the catch-all clause, which answers with code
    -32603. *)
Lemma undecodable_output_internal_error (request : Request) (st : state)
  (data : value) (proc : Process) (out err : bytes) (e : exn) :
  request_json request = Return data ->
  os (command (self st)) (args (self st)) (working_dir (self st))
    = Return proc ->
  communicate proc (encode py (json_dumps py data ++ nl))
    = Return (out, err) ->
  returncode proc = 0%Z ->
  decode py out = Raise e ->
  fst (handle_request py os request st)
  = Return {| status := 500;
              body := error_body_no_id (-32603) (exn_str e) |}.
Proof.
  intros Hjson Hos Hcomm Hcode Hdec.
  run. rewrite Hjson. simpl. rewrite Hos. simpl. rewrite Hcomm. simpl.
  rewrite Hcode. simpl. rewrite Hdec. simpl.
  destruct e; reflexivity.
Qed.

(** C3.  For every inbound body that parses as JSON, if the backend has
    been started, exits with code zero and its output parses as JSON, the
    bridge answers HTTP 200 with exactly the parsed value as its body. *)
Theorem success_returns_backend_json (request : Request) (st : state)
  (data : value) (proc : Process) (out err : bytes) (text : string)
  (response : value) :
  request_json request = Return data ->
  os (command (self st)) (args (self st)) (working_dir (self st))
    = Return proc ->
  communicate proc (encode py (json_dumps py data ++ nl))
    = Return (out, err) ->
  returncode proc = 0%Z ->
  decode py out = Return text ->
  json_loads py text = Return response ->
  fst (handle_request py os request st)
  = Return {| status := 200; body := response |}.
Proof.
  intros Hjson Hos Hcomm Hcode Hdec Hloads.
  run. rewrite Hjson. simpl. rewrite Hos. simpl. rewrite Hcomm. simpl.
  rewrite Hcode. simpl. rewrite Hdec. simpl. rewrite Hloads. reflexivity.
Qed.

(** Whatever is raised once the body has been parsed and before the
    process has ended, the catch-all clause builds its answer without an
    [id] member. *)
Lemma exception_response_has_no_id (request : Request) (st : state)
  (data : value) (e : exn) :
  request_json request = Return data ->
  os (command (self st)) (args (self st)) (working_dir (self st))
    = Raise e ->
  fst (handle_request py os request st)
  = Return {| status := 500;
              body := error_body_no_id (-32603) (exn_str e) |}.
Proof.
  intros Hjson Hos.
  run. rewrite Hjson. simpl. rewrite Hos. reflexivity.
Qed.

Lemma spawns_app (t u : list event) :
  spawns (t ++ u) = (spawns t + spawns u)%nat.
Proof.
  induction t as [|e t IH]; simpl; [reflexivity|].
  destruct e; simpl; rewrite IH; reflexivity.
Qed.

(** Case analysis on what the handler inspects, innermost test first. *)
Ltac cases :=
  repeat match goal with
         | |- context [(returncode ?p =? 0)%Z] =>
             destruct (returncode p =? 0)%Z eqn:?; simpl
         | |- context [match ?b with [] => _ | _ :: _ => _ end] =>
             is_var b; destruct b; simpl
         | |- context [decode py ?b] => destruct (decode py b) eqn:?; simpl
         | |- context [json_loads py ?t] =>
             destruct (json_loads py t) eqn:?; simpl
         | |- context [value_get ?d ?k ?v] =>
             destruct (value_get d k v) eqn:?; simpl
         | |- context [match ?e with JSONDecodeError _ => _ | _ => _ end] =>
             is_var e; destruct e; simpl
         end.

(** C5.  Every invocation of the handler returns exactly one response,
    never raises, and leaves the bridge object as it found it; it calls
    [create_subprocess_exec] at most once, and exactly once when the
    inbound body parses as JSON; and the response does not depend on
    anything earlier invocations left behind. *)
Theorem handle_request_one_response (request : Request) (st : state) :
  exists (resp : Response) (new : list event),
    handle_request py os request st
    = (Return resp, {| self := self st; trace := (trace st ++ new)%list |})
    /\ (spawns new <= 1)%nat
    /\ (spawns new = 1%nat <-> exists data, request_json request = Return data)
    /\ (forall st', self st' = self st ->
          fst (handle_request py os request st') = Return resp).
Proof.
  destruct st as [w tr].
  unfold handle_request, try_except, bind, lift, gets, emit, modify, ret,
    json_response; simpl.
  destruct (request_json request) as [data|e0] eqn:Hjson; simpl.
  2:{ exists {| status := 500;
                body := error_body_no_id (-32603) (exn_str e0) |}.
      exists [Print ("Exception: " ++ exn_str e0)].
      split; [reflexivity|]. split; [simpl; lia|]. split.
      - simpl. split; [discriminate|]. intros [data Hd]. discriminate.
      - intros st' Hst'. reflexivity. }
  assert (Hdata : exists x, Return data = Return x :> result value)
    by (eexists; reflexivity).
  destruct (os (command w) (args w) (working_dir w)) as [proc|e1] eqn:Hos;
    simpl.
  2:{ eexists. eexists.
      split; [rewrite <- !app_assoc; reflexivity|].
      split; [simpl; lia|]. split; [simpl; tauto|].
      intros st' Hst'. rewrite Hst', Hos. reflexivity. }
  destruct (communicate proc (encode py (json_dumps py data ++ nl)))
    as [[out err]|e2] eqn:Hcomm; simpl.
  2:{ eexists. eexists.
      split; [rewrite <- !app_assoc; reflexivity|].
      split; [simpl; lia|]. split; [simpl; tauto|].
      intros st' Hst'. rewrite Hst', Hos. simpl. rewrite Hcomm. reflexivity. }
  cases;
    (eexists; eexists;
     split; [rewrite <- !app_assoc; reflexivity|];
     split; [simpl; lia|]; split; [simpl; tauto|];
     intros st' Hst'; rewrite Hst', Hos; simpl; rewrite Hcomm; simpl;
     repeat match goal with H : _ = _ |- _ => rewrite H; simpl end;
     reflexivity).
Qed.

End BridgeProperties.

(** *** Worked examples for the bridge *)

Section BridgeExamples.

Import Bridge Scenario.

(** An [initialize] call with id 7, a backend that prints [boom] on its
    diagnostic stream and exits with code 1. *)
Lemma nonzero_exit_internal_error_witness :
  fst (handle_request python (running (backend [] (ascii_bytes "boom") 1))
         (request_of initialize7) fresh)
  = Return {| status := 500;
              body := error_body (VInt 7) (-32603) "boom" |}.
Proof.
  apply (nonzero_exit_internal_error python
           (running (backend [] (ascii_bytes "boom") 1))
           (request_of initialize7) fresh initialize7_members
           (backend [] (ascii_bytes "boom") 1) [] (ascii_bytes "boom")
           "boom").
  - reflexivity.
  - reflexivity.
  - reflexivity.
  - simpl. discriminate.
  - reflexivity.
Defined.

(** C1, as stated, fails.  The body is the JSON-RPC batch
    [[{"jsonrpc": "2.0", "method": "initialize", "id": 7, "params": {}}]]:
    it parses as JSON.  The backend exits with code 1 after printing
    [boom].  Building the answer calls [data.get] on a list, and the
    catch-all clause reports that failure instead of the diagnostic
    text. *)
Lemma nonzero_exit_batch_body_counterexample :
  exists resp : Response,
    request_json (request_of batch7) = Return batch7
    /\ returncode (backend [] (ascii_bytes "boom") 1) = 1%Z
    /\ decode python (ascii_bytes "boom") = Return "boom"
    /\ fst (handle_request python
              (running (backend [] (ascii_bytes "boom") 1))
              (request_of batch7) fresh) = Return resp
    /\ status resp = 500%Z
    /\ error_member resp "code" = VInt (-32603)
    /\ error_member resp "message"
       = VStr "'list' object has no attribute 'get'"
    /\ error_member resp "message" <> VStr "boom".
Proof.
  eexists. repeat split; try reflexivity. simpl. discriminate.
Qed.

(** The backend prints [oops] and exits with code 0. *)
Lemma unparsable_output_parse_error_witness :
  fst (handle_request python (running (backend (ascii_bytes "oops") [] 0))
         (request_of initialize7) fresh)
  = Return {| status := 500;
              body := error_body (VInt 7) (-32700)
                        "Parse error: Expecting value: line 1 column 1 (char 0)" |}.
Proof.
  apply (unparsable_output_parse_error python
           (running (backend (ascii_bytes "oops") [] 0))
           (request_of initialize7) fresh initialize7_members
           (backend (ascii_bytes "oops") [] 0) (ascii_bytes "oops") []
           "oops" "Expecting value: line 1 column 1 (char 0)").
  - reflexivity.
  - reflexivity.
  - reflexivity.
  - reflexivity.
  - reflexivity.
  - reflexivity.
Defined.

(** C2, as stated, fails.  The same batch body, and a backend that prints
    [oops] and exits with code 0: the parse-error clause calls [data.get]
    on a list, so the answer carries code -32603, not -32700, and no
    id. *)
Lemma unparsable_output_batch_body_counterexample :
  exists resp : Response,
    request_json (request_of batch7) = Return batch7
    /\ returncode (backend (ascii_bytes "oops") [] 0) = 0%Z
    /\ decode python (ascii_bytes "oops") = Return "oops"
    /\ json_loads python "oops"
       = Raise (JSONDecodeError "Expecting value: line 1 column 1 (char 0)")
    /\ fst (handle_request python
              (running (backend (ascii_bytes "oops") [] 0))
              (request_of batch7) fresh) = Return resp
    /\ status resp = 500%Z
    /\ error_member resp "code" = VInt (-32603)
    /\ error_member resp "code" <> VInt (-32700)
    /\ id_member resp = None.
Proof.
  eexists. repeat split; try reflexivity. simpl. discriminate.
Qed.

(** The backend prints [{"jsonrpc": "2.0", "id": 7, "result": {}}] and
    exits with code 0. *)
Lemma success_returns_backend_json_witness :
  fst (handle_request python
         (running (backend (ascii_bytes (Examples.dumps answer7)) [] 0))
         (request_of initialize7) fresh)
  = Return {| status := 200; body := answer7 |}.
Proof.
  apply (success_returns_backend_json python
           (running (backend (ascii_bytes (Examples.dumps answer7)) [] 0))
           (request_of initialize7) fresh initialize7
           (backend (ascii_bytes (Examples.dumps answer7)) [] 0)
           (ascii_bytes (Examples.dumps answer7)) []
           (Examples.dumps answer7) answer7).
  - reflexivity.
  - reflexivity.
  - reflexivity.
  - reflexivity.
  - reflexivity.
  - reflexivity.
Defined.

(** C4 at a failing input.  The body
    [{"jsonrpc": "2.0", "method": "initialize", "id": 7, "params": {}}]
    parses and carries id 7; the program to start is not installed, so
    [create_subprocess_exec] raises.  The answer is HTTP 500 with code
    -32603, and it has no [id] member at all. *)
Theorem spawn_failure_response_omits_id :
  exists resp : Response,
    request_json (request_of initialize7) = Return initialize7
    /\ value_get initialize7 "id" VNone = Return (VInt 7)
    /\ fst (handle_request python not_installed
              (request_of initialize7) fresh) = Return resp
    /\ status resp = 500%Z
    /\ error_member resp "code" = VInt (-32603)
    /\ error_member resp "message"
       = VStr "[Errno 2] No such file or directory: 'python'"
    /\ id_member resp = None.
Proof.
  eexists. repeat split; reflexivity.
Qed.

End BridgeExamples.

(** ** The reference backend *)

Section MockBackendProperties.

Import MockBackend.

Variable py : PyLib.

(** C9.  For every request whose method is none of [initialize],
    [tools/list] and [tools/call], the reference backend answers with a
    JSON-RPC error of code -32601 whose message is ["Unknown method: "]
    followed by the method as an f-string prints it, and whose id is the
    id of the request. *)
Theorem unknown_method_error (self : MockMcpServer) (request : dict) :
  dict_get request "method" VNone <> VStr "initialize" ->
  dict_get request "method" VNone <> VStr "tools/list" ->
  dict_get request "method" VNone <> VStr "tools/call" ->
  handle_request py self request
  = Return
      (VDict
         [("jsonrpc", VStr "2.0");
          ("id", dict_get request "id" VNone);
          ("error",
           VDict [("code", VInt (-32601));
                  ("message",
                   VStr ("Unknown method: "
                         ++ py_str py (dict_get request "method" VNone)))])]).
Proof.
  intros Hinit Hlist Hcall.
  assert (Hno : forall s, dict_get request "method" VNone <> VStr s ->
                          value_is_str (dict_get request "method" VNone) s
                          = false).
  { intros s Hs. destruct (dict_get request "method" VNone); try reflexivity.
    simpl. apply String.eqb_neq. intro E. apply Hs. now rewrite E. }
  unfold handle_request.
  rewrite (Hno _ Hinit), (Hno _ Hlist), (Hno _ Hcall). reflexivity.
Qed.

(** When the method is a string, the message ends with that string. *)
Lemma unknown_method_message (self : MockMcpServer) (request : dict)
  (method : string) :
  dict_get request "method" VNone = VStr method ->
  method <> "initialize" -> method <> "tools/list" ->
  method <> "tools/call" ->
  exists body,
    handle_request py self request = Return (VDict body)
    /\ dict_get body "id" VNone = dict_get request "id" VNone
    /\ dict_get body "error" VNone
       = VDict [("code", VInt (-32601));
                ("message", VStr ("Unknown method: " ++ method))].
Proof.
  intros Hm H1 H2 H3. unfold handle_request. rewrite Hm. simpl.
  apply String.eqb_neq in H1, H2, H3. rewrite H1, H2, H3.
  eexists. split; [reflexivity|]. split; reflexivity.
Qed.

End MockBackendProperties.

(** The request of the test script: [unknown_method] with id 99, sent to
    the [semantic_scholar] backend. *)
Lemma unknown_method_error_witness :
  MockBackend.handle_request Scenario.python
    {| MockBackend.name := "semantic_scholar" |} Scenario.unknown99
  = Return
      (VDict
         [("jsonrpc", VStr "2.0");
          ("id", VInt 99);
          ("error",
           VDict [("code", VInt (-32601));
                  ("message", VStr "Unknown method: unknown_method")])]).
Proof.
  apply (unknown_method_error Scenario.python
           {| MockBackend.name := "semantic_scholar" |} Scenario.unknown99).
  - simpl. discriminate.
  - simpl. discriminate.
  - simpl. discriminate.
Defined.
(** ** The job-side client *)

Section ToolsProperties.

Import Tools.

Variable py : PyLib.
Variable env : Env.

Lemma _env_missing (v : string) :
  missing env v -> _env env v = Raise (RuntimeError (missing_message v)).
Proof.
  unfold missing, _env. intros [H|H]; rewrite H; reflexivity.
Qed.

Lemma _env_present (v : string) :
  ~ missing env v -> exists x, _env env v = Return x.
Proof.
  unfold missing, _env. intros H.
  destruct (environ env v) as [x|]; [|tauto].
  destruct (String.eqb x EmptyString) eqn:E.
  - apply String.eqb_eq in E. subst x. tauto.
  - eauto.
Qed.

Lemma missing_dec (v : string) : missing env v \/ ~ missing env v.
Proof.
  unfold missing. destruct (environ env v) as [x|]; [|tauto].
  destruct (string_dec x EmptyString) as [->|Hx]; [tauto|].
  right. intros [H|H]; congruence.
Qed.

(** C6.  If any of the three connection parameters is missing from the
    environment, [call_tool] raises a [RuntimeError] whose message names a
    missing parameter (the first one missing, in the order base address,
    job identifier, token), and [urlopen] has not been called. *)
Theorem missing_parameter_raises_before_network (name : string)
  (params : value) (timeout_secs : option number) (log : netlog) :
  (exists v, In v required_variables /\ missing env v) ->
  exists v,
    In v required_variables /\ missing env v
    /\ call_tool py env name params timeout_secs log
       = (Raise (RuntimeError (missing_message v)), log)
    /\ exists before after, missing_message v = before ++ v ++ after.
Proof.
  intros [v0 [Hin Hmiss]].
  assert (Hnames : forall v, exists before after,
               missing_message v = before ++ v ++ after).
  { intros v. exists "Missing required environment variable: ".
    exists ". This SDK must be run inside an IronClaw container.".
    reflexivity. }
  destruct (missing_dec "IRONCLAW_ORCHESTRATOR_URL") as [Hu|Hu].
  { exists "IRONCLAW_ORCHESTRATOR_URL".
    split; [simpl; tauto|]. split; [assumption|]. split; [|apply Hnames].
    unfold call_tool, bind, lift, _base_url.
    rewrite (_env_missing _ Hu). reflexivity. }
  destruct (_env_present _ Hu) as [u Eu].
  destruct (missing_dec "IRONCLAW_JOB_ID") as [Hj|Hj].
  { exists "IRONCLAW_JOB_ID".
    split; [simpl; tauto|]. split; [assumption|]. split; [|apply Hnames].
    unfold call_tool, bind, lift, _base_url.
    rewrite Eu, (_env_missing _ Hj). reflexivity. }
  destruct (_env_present _ Hj) as [j Ej].
  assert (Ht : missing env "IRONCLAW_WORKER_TOKEN").
  { simpl in Hin. destruct Hin as [E|[E|[E|[]]]]; subst v0;
      [contradiction|contradiction|assumption]. }
  exists "IRONCLAW_WORKER_TOKEN".
  split; [simpl; tauto|]. split; [assumption|]. split; [|apply Hnames].
  unfold call_tool, bind, lift, _base_url, _token.
  rewrite Eu, Ej, (_env_missing _ Ht). reflexivity.
Qed.


(** A finite [float] is cut toward zero: [int] drops the fraction and
    keeps the sign. *)
Lemma py_int_toward_zero (s : bool) (m : positive) (e : Z) :
  exists n,
    py_int (NFloat (FFinite s m e)) = cond_Zopp s n
    /\ (0 <= n)%Z
    /\ match e with
       | Zneg p => (n * 2 ^ Zpos p <= Zpos m < (n + 1) * 2 ^ Zpos p)%Z
       | _ => n = (Zpos m * 2 ^ e)%Z
       end.
Proof.
  destruct e as [|p|p]; cbn [py_int].
  - exists (Zpos m * 2 ^ 0)%Z. repeat split; lia.
  - exists (Zpos m * 2 ^ Zpos p)%Z. repeat split.
    apply Z.mul_nonneg_nonneg; [lia|]. apply Z.pow_nonneg. lia.
  - exists (Z.shiftr (Zpos m) (Zpos p)). split; [reflexivity|].
    rewrite Z.shiftr_div_pow2 by lia.
    assert (Hp : (0 < 2 ^ Zpos p)%Z) by (apply Z.pow_pos_nonneg; lia).
    split.
    + apply Z.div_pos; lia.
    + pose proof (Z.div_mod (Zpos m) (2 ^ Zpos p)) as Hd.
      pose proof (Z.mod_pos_bound (Zpos m) (2 ^ Zpos p) Hp) as Hm.
      nia.
Qed.

(** What [call_tool] hands to [urlopen], once the base URL and the token
    are there and [Request] has accepted the address. *)
Lemma call_tool_sends (name : string) (params : value)
  (timeout_secs : option number) (log : netlog) (base token : string) :
  _base_url env = Return base ->
  _token env = Return token ->
  check_url py (base ++ "/tools/call") = Return tt ->
  snd (call_tool py env name params timeout_secs log)
  = List.app log
      [({| url := base ++ "/tools/call";
             data := encode py
                       (json_dumps py
                          (VDict (request_body name params timeout_secs)));
             headers := [("Content-Type", "application/json");
                         ("Authorization", "Bearer " ++ token)];
             http_method := "POST" |},
          transport_timeout timeout_secs)].
Proof.
  intros Hbase Htoken Hcheck.
  unfold call_tool, bind, lift, try_except, modify, raise, new_request.
  rewrite Hbase, Htoken, Hcheck; simpl.
  destruct (urlopen env _ _) as [raw|e]; simpl.
  - destruct (decode py raw) as [text|e]; simpl.
    + destruct (json_loads py text) as [result|e]; simpl.
      * destruct (value_get result "success" VNone) as [s|e]; simpl;
          [|reflexivity].
        destruct (negb (truthy s)); simpl; [|reflexivity].
        destruct (value_get result "error" _); reflexivity.
      * destruct e; reflexivity.
    + destruct e; reflexivity.
  - destruct e; reflexivity.
Qed.

Ltac crunch := cbv beta iota zeta delta [fst snd].

(** Unfold [call_tool] up to the call of [urlopen]. *)
Ltac send Hbase Htoken Hcheck :=
  unfold call_tool, bind, lift, try_except, modify, raise, new_request;
  rewrite Hbase, Htoken, Hcheck; crunch.

(** C7.  When the call reaches the network, [call_tool] hands [urlopen]
    one request whose body is the serialised dictionary [request_body];
    when [timeout_secs] is given as [t] that dictionary holds
    [timeout_secs = min(int(t), 300)], where [int] cuts a [float] toward
    zero: for an [int] this is [min(t, 300)] (300 for 500, 30 for 30);
    when it is not given the dictionary has no [timeout_secs] key. *)
Theorem timeout_clamped_in_body (name : string) (params : value)
  (timeout_secs : option number) (log : netlog) :
  reaches_network py env ->
  exists req,
    snd (call_tool py env name params timeout_secs log)
    = (log ++ [(req, transport_timeout timeout_secs)])%list
    /\ data req
       = encode py (json_dumps py
                      (VDict (request_body name params timeout_secs)))
    /\ match timeout_secs with
       | Some t =>
           request_body name params timeout_secs
           = [("tool_name", VStr name);
              ("parameters", if truthy params then params else VDict []);
              ("timeout_secs", VInt (Z.min (py_int t) 300))]
       | None =>
           request_body name params timeout_secs
           = [("tool_name", VStr name);
              ("parameters", if truthy params then params else VDict [])]
       end
    /\ (forall n,
          timeout_secs = Some (NInt n) ->
          dict_get (request_body name params timeout_secs)
            "timeout_secs" VNone
          = VInt (Z.min n 300))
    /\ (forall s m e,
          timeout_secs = Some (NFloat (FFinite s m e)) ->
          exists n,
            (0 <= n)%Z
            /\ match e with
               | Zneg p =>
                   (n * 2 ^ Zpos p <= Zpos m < (n + 1) * 2 ^ Zpos p)%Z
               | _ => n = (Zpos m * 2 ^ e)%Z
               end
            /\ dict_get (request_body name params timeout_secs)
                 "timeout_secs" VNone
               = VInt (Z.min (cond_Zopp s n) 300))
    /\ (timeout_secs = None ->
        dict_mem (request_body name params timeout_secs) "timeout_secs"
        = false)
    /\ dict_get (request_body name params (Some (NInt 500)))
         "timeout_secs" VNone
       = VInt 300
    /\ dict_get (request_body name params (Some (NInt 30)))
         "timeout_secs" VNone
       = VInt 30.
Proof.
  intros [base [token [Hbase [Htoken Hcheck]]]].
  eexists.
  split; [exact (call_tool_sends _ _ _ _ _ _ Hbase Htoken Hcheck)|].
  split; [reflexivity|]. split; [destruct timeout_secs; reflexivity|].
  split; [intros n ->; reflexivity|].
  split; [|split; [|split; reflexivity]].
  - intros s m e ->.
    destruct (py_int_toward_zero s m e) as [n [Hn [Hpos Hcut]]].
    exists n. split; [exact Hpos|]. split; [exact Hcut|].
    unfold request_body. rewrite Hn. reflexivity.
  - intros ->. simpl. destruct (truthy params); reflexivity.
Qed.

(** C8.  When the call reaches the network, [call_tool] calls [urlopen]
    exactly once and its outcome follows the answer: a transport failure
    raises with the reason; a non-2xx status raises with the status code
    and the body text; a 2xx answer with [success: false] raises with the
    tool name and the server's error (["unknown error"] when it sends
    none); a 2xx answer with [success: true] returns the [output] member
    as it is, which is a string when the server sent a string.  A normal
    return happens only for a 2xx answer that is a JSON object with a
    truthy [success]: every other outcome is an exception. *)
Theorem call_tool_outcomes (name : string) (params : value)
  (timeout_secs : option number) (log : netlog) :
  reaches_network py env ->
  exists req,
    snd (call_tool py env name params timeout_secs log)
    = (log ++ [(req, transport_timeout timeout_secs)])%list
    /\ (forall reason,
          urlopen env req (transport_timeout timeout_secs)
          = Raise (URLError reason) ->
          fst (call_tool py env name params timeout_secs log)
          = Raise (RuntimeError
                     ("Connection to orchestrator failed: " ++ reason)))
    /\ (forall code why fp,
          urlopen env req (transport_timeout timeout_secs)
          = Raise (HTTPError code why fp) ->
          fst (call_tool py env name params timeout_secs log)
          = Raise (RuntimeError
                     ("Tool call failed: HTTP " ++ str_of_Z code ++ ": "
                      ++ match fp with
                         | Some b => decode_replace py b
                         | None => EmptyString
                         end)))
    /\ (forall raw text d,
          urlopen env req (transport_timeout timeout_secs) = Return raw ->
          decode py raw = Return text ->
          json_loads py text = Return (VDict d) ->
          dict_get d "success" VNone = VBool false ->
          fst (call_tool py env name params timeout_secs log)
          = Raise (RuntimeError
                     ("Tool '" ++ name ++ "' failed: "
                      ++ py_str py
                           (dict_get d "error" (VStr "unknown error")))))
    /\ (forall raw text d,
          urlopen env req (transport_timeout timeout_secs) = Return raw ->
          decode py raw = Return text ->
          json_loads py text = Return (VDict d) ->
          dict_get d "success" VNone = VBool true ->
          fst (call_tool py env name params timeout_secs log)
          = Return (dict_get d "output" (VStr EmptyString))
          /\ (forall s, dict_get d "output" (VStr EmptyString) = VStr s ->
                        fst (call_tool py env name params timeout_secs log)
                        = Return (VStr s)))
    /\ (forall v,
          fst (call_tool py env name params timeout_secs log) = Return v ->
          exists raw text d,
            urlopen env req (transport_timeout timeout_secs) = Return raw
            /\ decode py raw = Return text
            /\ json_loads py text = Return (VDict d)
            /\ truthy (dict_get d "success" VNone) = true
            /\ v = dict_get d "output" (VStr EmptyString)).
Proof.
  intros [base [token [Hbase [Htoken Hcheck]]]].
  eexists. split; [|split; [|split; [|split; [|split]]]].
  - exact (call_tool_sends _ _ _ _ _ _ Hbase Htoken Hcheck).
  - intros reason Hurl. send Hbase Htoken Hcheck.
    rewrite Hurl. reflexivity.
  - intros code why fp Hurl. send Hbase Htoken Hcheck.
    rewrite Hurl. reflexivity.
  - intros raw text d Hurl Hdec Hloads Hsucc.
    send Hbase Htoken Hcheck.
    rewrite Hurl. crunch. rewrite Hdec. crunch. rewrite Hloads. crunch.
    simpl value_get. crunch. rewrite Hsucc. reflexivity.
  - intros raw text d Hurl Hdec Hloads Hsucc.
    assert (Hret : fst (call_tool py env name params timeout_secs log)
                   = Return (dict_get d "output" (VStr EmptyString))).
    { send Hbase Htoken Hcheck.
      rewrite Hurl. crunch. rewrite Hdec. crunch. rewrite Hloads. crunch.
      simpl value_get. crunch. rewrite Hsucc. reflexivity. }
    split; [exact Hret|]. intros s Hs. now rewrite Hret, Hs.
  - intros v. send Hbase Htoken Hcheck.
    destruct (urlopen env _ _) as [raw|e] eqn:Hurl; crunch.
    2:{ destruct e; simpl; discriminate. }
    destruct (decode py raw) as [text|e] eqn:Hdec; crunch.
    2:{ destruct e; simpl; discriminate. }
    destruct (json_loads py text) as [result|e] eqn:Hloads; crunch.
    2:{ destruct e; simpl; discriminate. }
    destruct result as [| | | | |l|d]; simpl; try discriminate.
    destruct (truthy (dict_get d "success" VNone)) eqn:Hs; simpl;
      [|discriminate].
    intros Hv. injection Hv as <-.
    exists raw, text, d. repeat split; assumption || reflexivity.
Qed.

End ToolsProperties.

(** *** Worked examples for the client *)

Section ToolsExamples.

Import Tools Scenario.

(** In a job container every call reaches the network. *)
Lemma orchestrator_reached (e : Env) (py : PyLib) :
  environ e = job_environment -> check_url py = Examples.check_scheme ->
  reaches_network py e.
Proof.
  intros He Hpy.
  exists "http://localhost:50051/worker/550e8400-e29b-41d4-a716-446655440000".
  exists "test-token-123".
  unfold _base_url, _token, _env. rewrite He, Hpy.
  repeat split; reflexivity.
Qed.

(** Outside a container the first variable is already missing. *)
Lemma missing_parameter_raises_before_network_witness :
  exists v,
    In v required_variables /\ missing outside_container v
    /\ call_tool python outside_container "echo" hello None []
       = (Raise (RuntimeError (missing_message v)), [])
    /\ exists before after, missing_message v = before ++ v ++ after.
Proof.
  apply (missing_parameter_raises_before_network python outside_container
           "echo" hello None []).
  exists "IRONCLAW_ORCHESTRATOR_URL". split.
  - simpl. tauto.
  - left. reflexivity.
Defined.

(** In a container, a timeout of 500 goes out as 300, and the transport
    waits 505 seconds. *)
Lemma timeout_clamped_in_body_witness :
  exists req,
    snd (call_tool python orchestrator "echo" hello (Some (NInt 500)) [])
    = [(req, SInt 505)]
    /\ data req
       = encode python
           (json_dumps python
              (VDict (request_body "echo" hello (Some (NInt 500)))))
    /\ request_body "echo" hello (Some (NInt 500))
       = [("tool_name", VStr "echo");
          ("parameters", hello);
          ("timeout_secs", VInt 300)].
Proof.
  destruct (timeout_clamped_in_body python orchestrator "echo" hello
              (Some (NInt 500)) []) as [req [Hlog [Hdata [Hbody _]]]].
  - apply orchestrator_reached; reflexivity.
  - exists req. split; [exact Hlog|]. split; [exact Hdata|]. exact Hbody.
Defined.

(** In a container, a timeout of 30.5 goes out as 30 while the transport
    waits 35.5 seconds.  The value sent is not [min(30.5, 300)]: that is
    30.5, and 30 is less. *)
Lemma timeout_truncated_counterexample :
  exists req,
    snd (call_tool python orchestrator "echo" hello
           (Some (NFloat thirty_and_a_half)) [])
    = [(req, SFloat (binary64 71 (-1)))]
    /\ data req
       = encode python
           (json_dumps python
              (VDict [("tool_name", VStr "echo");
                      ("parameters", hello);
                      ("timeout_secs", VInt 30)]))
    /\ SFcompare (float_value thirty_and_a_half) (binary64 300 0) = Some Lt
    /\ SFcompare (binary64 30 0) (float_value thirty_and_a_half) = Some Lt.
Proof.
  eexists. split; [vm_compute; reflexivity|].
  split; [reflexivity|]. split; reflexivity.
Defined.

(** In a container, the call of the test suite returns ["hello"]. *)
Lemma call_tool_outcomes_witness :
  fst (call_tool python orchestrator "echo" hello (Some (NInt 30)) [])
  = Return (VStr "hello").
Proof.
  destruct (call_tool_outcomes python orchestrator "echo" hello
              (Some (NInt 30)) []) as [req [_ [_ [_ [_ [Hok _]]]]]].
  - apply orchestrator_reached; reflexivity.
  - apply (Hok (ascii_bytes (Examples.dumps echo_answer))
             (Examples.dumps echo_answer)
             [("success", VBool true);
              ("output", VStr "hello");
              ("duration_ms", VInt 5);
              ("was_sanitized", VBool false)]); reflexivity.
Defined.

(** An orchestrator that answers [{"success": true, "output": 5}]: the
    call makes its one request and returns the integer 5, not a
    string. *)
Lemma numeric_output_counterexample :
  exists req,
    call_tool python_numeric counting_orchestrator "echo" hello None []
    = (Return (VInt 5), [(req, SInt 65)])
    /\ type_name (VInt 5) = "int".
Proof.
  eexists. split; [vm_compute; reflexivity|reflexivity].
Defined.

(** An address without a scheme: [Request] raises [ValueError], which
    [call_tool] does not catch, and [urlopen] is not called. *)
Lemma schemeless_address_raises :
  call_tool python schemeless_container "echo" hello None []
  = (Raise (OtherError "ValueError"
              ("unknown url type: 'orchestrator.internal/worker/"
               ++ "550e8400-e29b-41d4-a716-446655440000/tools/call'")),
     []).
Proof.
  reflexivity.
Qed.

End ToolsExamples.

(** ** The markdown auto-block updater *)

Section ParityProperties.

Import Parity.

Variable py : PyLib.

(** *** Strings *)

Lemma append_assoc (a b c : string) : (a ++ b) ++ c = a ++ (b ++ c).
Proof. induction a as [|x a IH]; simpl; [reflexivity|]. now rewrite IH. Qed.

Lemma append_nil_r (a : string) : a ++ EmptyString = a.
Proof. induction a as [|x a IH]; simpl; [reflexivity|]. now rewrite IH. Qed.

Lemma length_append (a b : string) :
  String.length (a ++ b) = (String.length a + String.length b)%nat.
Proof. induction a as [|x a IH]; simpl; [reflexivity|]. now rewrite IH. Qed.

(** *** [strip_prefix] *)

Lemma strip_prefix_app (p s : string) : strip_prefix p (p ++ s) = Some s.
Proof.
  induction p as [|a p IH]; simpl; [reflexivity|].
  now rewrite Ascii.eqb_refl.
Qed.

Lemma strip_prefix_Some (p s r : string) :
  strip_prefix p s = Some r -> s = p ++ r.
Proof.
  revert s. induction p as [|a p IH]; intros s H; simpl in *.
  - now injection H as <-.
  - destruct s as [|b s]; [discriminate|].
    destruct (Ascii.eqb a b) eqn:E; [|discriminate].
    apply Ascii.eqb_eq in E. subst b. now rewrite (IH _ H).
Qed.

Lemma strip_prefix_cons (a b : ascii) (p s : string) :
  strip_prefix (String a p) (String b s)
  = if Ascii.eqb a b then strip_prefix p s else None.
Proof. reflexivity. Qed.

(** A prefix found in [s] is still there when [s] is extended. *)
Lemma strip_prefix_extend (p s r t : string) :
  strip_prefix p s = Some r -> strip_prefix p (s ++ t) = Some (r ++ t).
Proof.
  intros H. rewrite (strip_prefix_Some _ _ _ H), append_assoc.
  apply strip_prefix_app.
Qed.

(** [p] against [s ++ y]: when [s] is a prefix of [p] the rest of [p] is
    matched against [y]; otherwise [s] alone decides. *)
Lemma strip_prefix_split (p s y : string) :
  strip_prefix p (s ++ y)
  = match strip_prefix s p with
    | Some p' => strip_prefix p' y
    | None =>
        match strip_prefix p s with
        | Some r => Some (r ++ y)
        | None => None
        end
    end.
Proof.
  revert s. induction p as [|a p IH]; intros s.
  - destruct s; simpl; reflexivity.
  - destruct s as [|b s]; simpl; [reflexivity|].
    rewrite (Ascii.eqb_sym b a).
    destruct (Ascii.eqb a b); [apply IH|reflexivity].
Qed.

(** Only the first [length p] characters matter. *)
Lemma strip_prefix_None_local (p x y z : string) :
  (String.length p <= String.length x)%nat ->
  strip_prefix p (x ++ y) = None -> strip_prefix p (x ++ z) = None.
Proof.
  revert x. induction p as [|a p IH]; intros x Hlen H; simpl in *.
  - discriminate.
  - destruct x as [|b x]; simpl in *; [lia|].
    destruct (Ascii.eqb a b); [|reflexivity].
    apply IH; [lia|assumption].
Qed.

(** *** The lazy scan for the end marker *)

Lemma lazy_to_end_eq (s : string) :
  lazy_to_end s
  = match strip_prefix END_MARKER s with
    | Some rest =>
        match strip_prefix nl rest with
        | Some rest' => Some (END_MARKER ++ nl, rest')
        | None => Some (END_MARKER, rest)
        end
    | None =>
        match s with
        | EmptyString => None
        | String c s' =>
            match lazy_to_end s' with
            | Some (m, rest) => Some (String c m, rest)
            | None => None
            end
        end
    end.
Proof. destruct s; reflexivity. Qed.

(** The scan walks over a text in which the end marker starts nowhere. *)
Lemma lazy_to_end_skip (x y : string) :
  (forall s1 s2, x = s1 ++ s2 -> s2 <> EmptyString ->
                 strip_prefix END_MARKER (s2 ++ y) = None) ->
  lazy_to_end (x ++ y)
  = match lazy_to_end y with
    | Some (m, rest) => Some (x ++ m, rest)
    | None => None
    end.
Proof.
  induction x as [|c x IH]; intros H.
  - simpl. destruct (lazy_to_end y) as [[m rest]|]; reflexivity.
  - rewrite lazy_to_end_eq.
    rewrite (H EmptyString (String c x) eq_refl) by discriminate.
    simpl. rewrite IH.
    + destruct (lazy_to_end y) as [[m rest]|]; reflexivity.
    + intros s1 s2 E Hne. apply (H (String c s1) s2); [|assumption].
      simpl. now rewrite E.
Qed.

(** The end marker with its line feed, right where the scan stands. *)
Lemma lazy_to_end_here (rest : string) :
  lazy_to_end (END_MARKER ++ nl ++ rest) = Some (END_MARKER ++ nl, rest).
Proof.
  rewrite lazy_to_end_eq, strip_prefix_app, strip_prefix_app. reflexivity.
Qed.

(** Wherever an end marker lies ahead, the scan finds one. *)
Lemma lazy_to_end_finds (x t : string) :
  lazy_to_end (x ++ END_MARKER ++ t) <> None.
Proof.
  induction x as [|c x IH]; rewrite lazy_to_end_eq.
  - cbn [append]. rewrite strip_prefix_app.
    destruct (strip_prefix nl t); discriminate.
  - destruct (strip_prefix END_MARKER (String c x ++ END_MARKER ++ t)).
    + destruct (strip_prefix nl s); discriminate.
    + cbn [append].
      destruct (lazy_to_end (x ++ END_MARKER ++ t)) as [[m r]|] eqn:E;
        [discriminate|contradiction].
Qed.

(** What the scan matched ends with an end marker, and nothing is lost. *)
Lemma lazy_to_end_Some (s m rest : string) :
  lazy_to_end s = Some (m, rest) ->
  s = m ++ rest /\ exists x t, m = x ++ END_MARKER ++ t.
Proof.
  revert m rest. induction s as [|c s IH]; intros m rest;
    rewrite lazy_to_end_eq.
  - destruct (strip_prefix END_MARKER EmptyString) as [r|] eqn:E;
      [|discriminate].
    discriminate E.
  - destruct (strip_prefix END_MARKER (String c s)) as [r|] eqn:E.
    + apply strip_prefix_Some in E.
      destruct (strip_prefix nl r) as [r'|] eqn:E'.
      * apply strip_prefix_Some in E'. intros H.
        assert (Hm : m = END_MARKER ++ nl) by congruence.
        assert (Hr : rest = r') by congruence. subst m rest.
        split.
        -- rewrite E, E'. now rewrite append_assoc.
        -- exists EmptyString, nl. reflexivity.
      * intros H.
        assert (Hm : m = END_MARKER) by congruence.
        assert (Hr : rest = r) by congruence. subst m rest.
        split; [assumption|].
        exists EmptyString, EmptyString. cbn [append].
        now rewrite append_nil_r.
    + destruct (lazy_to_end s) as [[m' r']|]; [|discriminate].
      intros H.
      assert (Hm : m = String c m') by congruence.
      assert (Hr : rest = r') by congruence. subst m rest.
      destruct (IH _ _ eq_refl) as [Hs [x [t Hm]]]. split.
      * cbn [append]. now rewrite <- Hs.
      * exists (String c x), t. cbn [append]. now rewrite Hm.
Qed.

(** *** Occurrences *)

Lemma contains_eq (p s : string) :
  contains p s
  = match strip_prefix p s with
    | Some _ => true
    | None =>
        match s with
        | EmptyString => false
        | String _ s' => contains p s'
        end
    end.
Proof. destruct s; reflexivity. Qed.

Lemma contains_suffix (p s1 s2 : string) :
  contains p (s1 ++ s2) = false -> contains p s2 = false.
Proof.
  induction s1 as [|a s1 IH]; [trivial|].
  cbn [append]. rewrite contains_eq.
  destruct (strip_prefix p (String a (s1 ++ s2))); [discriminate|exact IH].
Qed.

Lemma contains_prefix (p s1 s2 : string) :
  contains p (s1 ++ s2) = false -> contains p s1 = false.
Proof.
  induction s1 as [|a s1 IH].
  - cbn [append]. rewrite (contains_eq p EmptyString), (contains_eq p s2).
    destruct (strip_prefix p EmptyString) as [r|] eqn:E; [|reflexivity].
    pose proof (strip_prefix_extend _ _ _ s2 E) as E2. cbn [append] in E2.
    rewrite E2. discriminate.
  - cbn [append].
    rewrite (contains_eq p (String a s1)),
      (contains_eq p (String a (s1 ++ s2))).
    destruct (strip_prefix p (String a s1)) as [r|] eqn:E.
    + change (String a (s1 ++ s2)) with (String a s1 ++ s2).
      rewrite (strip_prefix_extend _ _ _ s2 E). discriminate.
    + destruct (strip_prefix p (String a (s1 ++ s2))); [discriminate|].
      exact IH.
Qed.

Lemma contains_head (p s : string) :
  contains p s = false -> strip_prefix p s = None.
Proof.
  rewrite contains_eq. destruct (strip_prefix p s); [discriminate|reflexivity].
Qed.

(** A text without [<] is one in which the end marker starts nowhere. *)
Lemma no_angle_no_end (x y : string) :
  contains "<" x = false ->
  forall s1 s2, x = s1 ++ s2 -> s2 <> EmptyString ->
                strip_prefix END_MARKER (s2 ++ y) = None.
Proof.
  intros Hx s1 s2 -> Hne. apply contains_suffix in Hx.
  destruct s2 as [|a s2]; [contradiction|].
  apply contains_head in Hx. rewrite strip_prefix_cons in Hx.
  unfold END_MARKER. cbn [append]. rewrite strip_prefix_cons.
  destruct (Ascii.eqb "<" a); [discriminate|reflexivity].
Qed.

(** Peel the characters of an unknown prefix [s] of a literal, one at a
    time; each round closes the case where [s] ends there. *)
Ltac peel s H :=
  repeat (destruct s as [|? s];
          [ cbn [strip_prefix] in H; injection H as <-;
            try reflexivity; try contradiction
          | first [ rewrite strip_prefix_cons in H;
                    match type of H with
                    | (if ?b then _ else _) = _ =>
                        destruct b; [|discriminate H]
                    end
                  | discriminate H ] ]).

(** What is left of the end marker after a proper prefix of it does not
    go on into [" at commit `"], nor into a backquote. *)
Lemma end_tail_at_commit (s p' z : string) :
  strip_prefix s END_MARKER = Some p' -> p' <> EmptyString ->
  strip_prefix p' (" at commit `" ++ z) = None.
Proof. unfold END_MARKER. intros H Hne. peel s H. Qed.

Lemma end_tail_backquote (s p' z : string) :
  strip_prefix s END_MARKER = Some p' -> p' <> EmptyString ->
  strip_prefix p' ("`." ++ z) = None.
Proof. unfold END_MARKER. intros H Hne. peel s H. Qed.

(** What is left of the start marker after a proper prefix of it does not
    go on into a line feed. *)
Lemma start_tail_newline (s p' z : string) :
  strip_prefix s START_MARKER = Some p' -> p' <> EmptyString ->
  strip_prefix p' (nl ++ z) = None.
Proof. unfold START_MARKER. intros H Hne. peel s H. Qed.

(** A proper prefix of the end marker at the end of a text that does not
    contain the marker: whether the marker starts there is decided by
    what follows. *)
Lemma no_end_then (x y : string) :
  contains END_MARKER x = false ->
  (forall s p', strip_prefix s END_MARKER = Some p' -> p' <> EmptyString ->
                strip_prefix p' y = None) ->
  forall s1 s2, x = s1 ++ s2 -> s2 <> EmptyString ->
                strip_prefix END_MARKER (s2 ++ y) = None.
Proof.
  intros Hx Htail s1 s2 -> Hne. apply contains_suffix in Hx.
  apply contains_head in Hx. rewrite strip_prefix_split, Hx.
  destruct (strip_prefix s2 END_MARKER) as [p'|] eqn:E; [|reflexivity].
  apply (Htail s2 p' E). intros ->.
  apply strip_prefix_Some in E. rewrite append_nil_r in E. subst s2.
  rewrite <- (append_nil_r END_MARKER) in Hx at 2.
  rewrite strip_prefix_app in Hx. discriminate.
Qed.

(** The generated block is matched by the pattern as a whole, whatever
    follows it, when neither argument contains the end marker. *)
Lemma block_matches_itself (sync_sha pr_number rest : string) :
  contains END_MARKER sync_sha = false ->
  contains END_MARKER pr_number = false ->
  match_here (build_auto_block sync_sha pr_number ++ rest)
  = Some (build_auto_block sync_sha pr_number, rest).
Proof.
  intros Hsha Hpr. unfold match_here, build_auto_block.
  rewrite !append_assoc, strip_prefix_app.
  rewrite lazy_to_end_skip by (apply no_angle_no_end; reflexivity).
  rewrite lazy_to_end_skip by (apply no_angle_no_end; reflexivity).
  rewrite lazy_to_end_skip
    by (apply no_end_then; [assumption|];
        intros s p'; apply end_tail_at_commit).
  rewrite lazy_to_end_skip by (apply no_angle_no_end; reflexivity).
  rewrite lazy_to_end_skip
    by (apply no_end_then; [assumption|];
        intros s p'; apply end_tail_backquote).
  rewrite lazy_to_end_skip by (apply no_angle_no_end; reflexivity).
  rewrite lazy_to_end_skip by (apply no_angle_no_end; reflexivity).
  rewrite lazy_to_end_skip by (apply no_angle_no_end; reflexivity).
  rewrite lazy_to_end_skip by (apply no_angle_no_end; reflexivity).
  rewrite lazy_to_end_here.
  rewrite <- !append_assoc. reflexivity.
Qed.

(** *** [search] *)

Lemma search_eq (s : string) :
  search s
  = match match_here s with
    | Some (m, rest) => Some (EmptyString, m, rest)
    | None =>
        match s with
        | EmptyString => None
        | String c s' =>
            match search s' with
            | Some (before, m, rest) => Some (String c before, m, rest)
            | None => None
            end
        end
    end.
Proof. destruct s; reflexivity. Qed.

(** A match is a start marker, some text, an end marker, and the split of
    the subject loses nothing. *)
Lemma match_here_Some (s m rest : string) :
  match_here s = Some (m, rest) ->
  s = m ++ rest /\ exists x t, m = START_MARKER ++ x ++ END_MARKER ++ t.
Proof.
  unfold match_here.
  destruct (strip_prefix START_MARKER s) as [r|] eqn:E; [|discriminate].
  destruct (lazy_to_end r) as [[m' r']|] eqn:E'; [|discriminate].
  intros H.
  assert (Hm : m = START_MARKER ++ m') by congruence.
  assert (Hr : rest = r') by congruence. subst m rest.
  apply strip_prefix_Some in E.
  destruct (lazy_to_end_Some _ _ _ E') as [Hs [x [t Hx]]]. split.
  - now rewrite E, Hs, append_assoc.
  - exists x, t. now rewrite Hx.
Qed.

Lemma search_Some (s before m rest : string) :
  search s = Some (before, m, rest) ->
  s = before ++ m ++ rest
  /\ exists x t, m = START_MARKER ++ x ++ END_MARKER ++ t.
Proof.
  revert before. induction s as [|c s IH]; intros before;
    rewrite search_eq.
  - destruct (match_here EmptyString) as [[m0 r0]|] eqn:E; [|discriminate].
    intros H.
    assert (before = EmptyString /\ m0 = m /\ r0 = rest) as [-> [-> ->]]
      by (repeat split; congruence).
    apply match_here_Some in E. exact E.
  - destruct (match_here (String c s)) as [[m0 r0]|] eqn:E.
    + intros H.
      assert (before = EmptyString /\ m0 = m /\ r0 = rest) as [-> [-> ->]]
        by (repeat split; congruence).
      apply match_here_Some in E. exact E.
    + destruct (search s) as [[[b' m'] r']|] eqn:E'; [|discriminate].
      intros H.
      assert (before = String c b' /\ m' = m /\ r' = rest)
        as [-> [-> ->]] by (repeat split; congruence).
      destruct (IH _ eq_refl) as [Hs Hm]. split; [|exact Hm].
      cbn [append]. now rewrite <- Hs.
Qed.

(** Two ways to cut the same text, the first cut not after the second. *)
Lemma append_cut (a r u v : string) :
  a ++ r = u ++ v -> (String.length a <= String.length u)%nat ->
  exists w, r = w ++ v.
Proof.
  revert u. induction a as [|x a IH]; intros u H Hlen.
  - exists u. exact H.
  - destruct u as [|y u]; cbn [String.length] in Hlen; [lia|].
    cbn [append] in H. injection H as _ H.
    apply (IH u H). lia.
Qed.

(** When the pattern matches somewhere further on, a start marker at the
    head would have found its end marker: no match at the head means no
    start marker at the head. *)
Lemma no_match_no_start (c : ascii) (s before m rest : string) :
  match_here (String c s) = None ->
  search s = Some (before, m, rest) ->
  strip_prefix START_MARKER (String c s) = None.
Proof.
  unfold match_here. intros Hhere Hs.
  destruct (strip_prefix START_MARKER (String c s)) as [r|] eqn:E;
    [|reflexivity].
  exfalso.
  destruct (search_Some _ _ _ _ Hs) as [Hcut [x [t Hm]]].
  apply strip_prefix_Some in E.
  assert (Hr : exists w, r = w ++ x ++ END_MARKER ++ t ++ rest).
  { apply (append_cut START_MARKER r (String c before ++ START_MARKER)).
    - rewrite <- E, Hcut, Hm. cbn [append]. now rewrite !append_assoc.
    - rewrite length_append. lia. }
  destruct Hr as [w Hr]. rewrite Hr, <- append_assoc in Hhere.
  destruct (lazy_to_end ((w ++ x) ++ END_MARKER ++ t ++ rest)) as [[m' r']|]
    eqn:El; [discriminate|].
  now apply lazy_to_end_finds in El.
Qed.

(** Replacing the leftmost match by a block that matches itself leaves
    the block as the leftmost match. *)
Lemma search_after_replace (block : string) :
  (forall rest, match_here (block ++ rest) = Some (block, rest)) ->
  (exists b, block = START_MARKER ++ b) ->
  forall s before m rest,
    search s = Some (before, m, rest) ->
    search (before ++ block ++ rest) = Some (before, block, rest).
Proof.
  intros Hblock [b Hb] s. induction s as [|c s IH]; intros before m rest;
    rewrite search_eq.
  - destruct (match_here EmptyString) as [[m0 r0]|] eqn:E; [|discriminate].
    intros H.
    assert (before = EmptyString /\ r0 = rest) as [-> ->]
      by (split; congruence).
    cbn [append]. now rewrite search_eq, Hblock.
  - destruct (match_here (String c s)) as [[m0 r0]|] eqn:E.
    + intros H.
      assert (before = EmptyString /\ r0 = rest) as [-> ->]
        by (split; congruence).
      cbn [append]. now rewrite search_eq, Hblock.
    + destruct (search s) as [[[b' m'] r']|] eqn:E'; [|discriminate].
      intros H.
      assert (before = String c b' /\ m' = m /\ r' = rest)
        as [-> [-> ->]] by (repeat split; congruence).
      pose proof (no_match_no_start _ _ _ _ _ E E') as Hno.
      destruct (search_Some _ _ _ _ E') as [Hcut [x [t Hm]]].
      cbn [append]. rewrite search_eq.
      assert (Hhere : match_here (String c (b' ++ block ++ rest)) = None).
      { unfold match_here.
        replace (String c (b' ++ block ++ rest))
          with ((String c b' ++ START_MARKER) ++ b ++ rest)
          by (rewrite Hb; cbn [append]; now rewrite !append_assoc).
        rewrite (strip_prefix_None_local START_MARKER
                   (String c b' ++ START_MARKER)
                   (x ++ END_MARKER ++ t ++ rest)); [reflexivity| |].
        - rewrite length_append. lia.
        - rewrite <- Hno, Hcut, Hm. cbn [append].
          now rewrite !append_assoc. }
      rewrite Hhere, (IH _ _ _ eq_refl). reflexivity.
Qed.

(** A block that matches itself, put on a line of its own after a text
    without start marker, is the leftmost match. *)
Lemma search_after_insert (block before rest : string) :
  (forall r, match_here (block ++ r) = Some (block, r)) ->
  contains START_MARKER before = false ->
  search (before ++ nl ++ block ++ rest) = Some (before ++ nl, block, rest).
Proof.
  intros Hblock. induction before as [|c before IH]; intros Hno.
  - cbn [append]. rewrite search_eq.
    assert (Hnl : match_here (nl ++ block ++ rest) = None) by reflexivity.
    rewrite Hnl. unfold nl at 1. cbn [append].
    now rewrite search_eq, Hblock.
  - pose proof (contains_head _ _ Hno) as Hhead.
    rewrite contains_eq, Hhead in Hno.
    cbn [append]. rewrite search_eq.
    assert (Hhere : match_here (String c (before ++ nl ++ block ++ rest))
                    = None).
    { unfold match_here.
      change (String c (before ++ nl ++ block ++ rest))
        with (String c before ++ nl ++ block ++ rest).
      rewrite strip_prefix_split, Hhead.
      destruct (strip_prefix (String c before) START_MARKER) as [p'|] eqn:E;
        [|reflexivity].
      rewrite (start_tail_newline _ _ _ E); [reflexivity|].
      intros ->. apply strip_prefix_Some in E.
      rewrite append_nil_r in E. rewrite <- E in Hhead.
      rewrite <- (append_nil_r START_MARKER) in Hhead at 2.
      rewrite strip_prefix_app in Hhead. discriminate. }
    rewrite Hhere, (IH Hno). reflexivity.
Qed.

(** *** [splitlines] and [join] *)

Lemma line_end_Some (s t rest : string) :
  line_end s = Some (t, rest) -> s = t ++ rest /\ t <> EmptyString.
Proof.
  unfold line_end. destruct s as [|c s1]; [discriminate|].
  repeat match goal with
         | |- context [if ?b then _ else _] => destruct b
         | |- context [match ?x with EmptyString => _ | String _ _ => _ end] =>
             destruct x
         end;
    intros H; try discriminate H; injection H as <- <-;
    (split; [reflexivity|discriminate]).
Qed.

Lemma first_line_eq (s : string) :
  first_line s
  = match line_end s with
    | Some (t, rest) => (t, rest)
    | None =>
        match s with
        | EmptyString => (EmptyString, EmptyString)
        | String c s' => let (l, r) := first_line s' in (String c l, r)
        end
    end.
Proof. destruct s; reflexivity. Qed.

Lemma first_line_spec (s l r : string) :
  first_line s = (l, r) ->
  s = l ++ r
  /\ (s <> EmptyString -> (String.length r < String.length s)%nat).
Proof.
  revert l r. induction s as [|c s IH]; intros l r; rewrite first_line_eq.
  - cbn. intros H. injection H as <- <-. split; [reflexivity|congruence].
  - destruct (line_end (String c s)) as [[t rest]|] eqn:E.
    + intros H. injection H as <- <-.
      destruct (line_end_Some _ _ _ E) as [Hs Ht]. split; [exact Hs|].
      intros _. rewrite Hs, length_append.
      destruct t; [contradiction|]. cbn [String.length]. lia.
    + destruct (first_line s) as [l' r'] eqn:E'. intros H.
      injection H as <- <-.
      destruct (IH _ _ eq_refl) as [Hs Hlen]. split.
      * cbn [append]. now rewrite <- Hs.
      * intros _. cbn [String.length].
        destruct s as [|d s]; [|specialize (Hlen ltac:(discriminate)); lia].
        cbn in E'. injection E' as <- <-. cbn. lia.
Qed.

Lemma join_splitlines_fuel (fuel : nat) (s : string) :
  (String.length s <= fuel)%nat -> join (splitlines_fuel fuel s) = s.
Proof.
  revert s. induction fuel as [|fuel IH]; intros s Hlen.
  - destruct s; [reflexivity|cbn in Hlen; lia].
  - destruct s as [|c s]; [reflexivity|].
    cbn [splitlines_fuel].
    destruct (first_line (String c s)) as [l r] eqn:E.
    destruct (first_line_spec _ _ _ E) as [Hs Hr].
    specialize (Hr ltac:(discriminate)).
    cbn [join fold_right]. change (fold_right append EmptyString) with join.
    rewrite IH by lia. now rewrite <- Hs.
Qed.

(** ["".join(s.splitlines(keepends=True)) == s] *)
Lemma join_splitlines (s : string) : join (splitlines s) = s.
Proof. apply join_splitlines_fuel. reflexivity. Qed.

Lemma join_app (l1 l2 : list string) :
  join (l1 ++ l2) = join l1 ++ join l2.
Proof.
  induction l1 as [|x l1 IH]; [reflexivity|].
  cbn [join fold_right app]. change (fold_right append EmptyString) with join.
  now rewrite IH, append_assoc.
Qed.

(** Inserting after a title cuts the content in two and puts the block,
    with a line feed on either side, in the cut. *)
Lemma insert_after_title (content block : string) :
  title_index (splitlines content) <> None ->
  exists before rest,
    content = before ++ rest
    /\ insert_block_after_title content block
       = before ++ nl ++ block ++ nl ++ rest.
Proof.
  unfold insert_block_after_title. intros Ht.
  destruct (title_index (splitlines content)) as [idx|]; [|contradiction].
  match goal with
  | |- context [join (firstn ?n _ ++ _)%list] => set (insert_at := n)
  end.
  exists (join (firstn insert_at (splitlines content))).
  exists (join (skipn insert_at (splitlines content))). split.
  - now rewrite <- join_app, firstn_skipn, join_splitlines.
  - rewrite !join_app. cbn [join fold_right].
    change (fold_right append EmptyString) with join.
    now rewrite append_nil_r, !append_assoc.
Qed.

(** *** The replacement template *)

Lemma expand_template_plain (t m : string) :
  contains (String backslash EmptyString) t = false ->
  expand_template py O t m = Return t.
Proof.
  induction t as [|c t IH]; [reflexivity|].
  rewrite contains_eq, strip_prefix_cons. cbn [expand_template].
  rewrite (Ascii.eqb_sym c backslash).
  destruct (Ascii.eqb backslash c); [discriminate|].
  intros H. now rewrite (IH H).
Qed.

Lemma contains_char_app (c : ascii) (a b : string) :
  contains (String c EmptyString) a = false ->
  contains (String c EmptyString) b = false ->
  contains (String c EmptyString) (a ++ b) = false.
Proof.
  induction a as [|x a IH]; [trivial|].
  cbn [append]. rewrite !(contains_eq _ (String x _)), !strip_prefix_cons.
  destruct (Ascii.eqb c x); [discriminate|]. exact IH.
Qed.

Lemma block_has_no_backslash (sync_sha pr_number : string) :
  contains (String backslash EmptyString) sync_sha = false ->
  contains (String backslash EmptyString) pr_number = false ->
  contains (String backslash EmptyString)
    (build_auto_block sync_sha pr_number) = false.
Proof.
  intros Hsha Hpr. unfold build_auto_block.
  repeat (apply contains_char_app; [assumption || reflexivity|]).
  reflexivity.
Qed.

(** C10 (as amended).  [update_content] is idempotent on every content in
    which a start marker, if there is one, is followed by an end marker,
    for every sync sha and PR number that contain neither a backslash nor
    the end marker: the first run succeeds, and a second run on its
    result returns that result unchanged. *)
Theorem update_content_idempotent (content sync_sha pr_number : string) :
  contains (String backslash EmptyString) sync_sha = false ->
  contains (String backslash EmptyString) pr_number = false ->
  contains END_MARKER sync_sha = false ->
  contains END_MARKER pr_number = false ->
  (search content = None -> contains START_MARKER content = false) ->
  exists updated,
    update_content py content sync_sha pr_number = Return updated
    /\ update_content py updated sync_sha pr_number = Return updated.
Proof.
  intros Hbs_sha Hbs_pr Hend_sha Hend_pr Hpaired.
  pose proof (fun rest =>
                block_matches_itself sync_sha pr_number rest Hend_sha Hend_pr)
    as Hself.
  pose proof (fun m =>
                expand_template_plain (build_auto_block sync_sha pr_number) m
                  (block_has_no_backslash _ _ Hbs_sha Hbs_pr)) as Hplain.
  assert (Hstart : exists b,
             build_auto_block sync_sha pr_number = START_MARKER ++ b)
    by (eexists; reflexivity).
  unfold update_content.
  destruct (search content) as [[[before m] rest]|] eqn:E.
  - rewrite Hplain. eexists. split; [reflexivity|].
    rewrite (search_after_replace _ Hself Hstart _ _ _ _ E), Hplain.
    reflexivity.
  - specialize (Hpaired eq_refl). eexists. split; [reflexivity|].
    destruct (title_index (splitlines content)) as [idx|] eqn:Et.
    + destruct (insert_after_title content
                  (build_auto_block sync_sha pr_number))
        as [before [rest [Hcut Hins]]]; [congruence|].
      rewrite Hins. rewrite Hcut in Hpaired.
      apply contains_prefix in Hpaired.
      rewrite (search_after_insert _ _ (nl ++ rest) Hself Hpaired), Hplain.
      now rewrite !append_assoc.
    + unfold insert_block_after_title. rewrite Et.
      destruct (String.eqb content EmptyString).
      * rewrite <- (append_nil_r (build_auto_block sync_sha pr_number))
          at 1.
        rewrite search_eq, Hself, Hplain. cbn [append].
        now rewrite append_nil_r.
      * rewrite search_eq, Hself, Hplain. reflexivity.
Qed.

(** Whenever a second [update_content] returns its input, the script run
    twice on the same file with the same environment leaves the file of
    the first run as it is. *)
Lemma main_second_run_changes_nothing (environ : string -> option string)
  (fs : files) (content updated : string) :
  let sync_sha := getenv environ "PARITY_SYNC_SHA" "unknown" in
  let pr_number := getenv environ "PARITY_PR_NUMBER" "unknown" in
  fs (getenv environ "FEATURE_PARITY_PATH" "FEATURE_PARITY.md")
  = Some content ->
  update_content py content sync_sha pr_number = Return updated ->
  update_content py updated sync_sha pr_number = Return updated ->
  exists fs1,
    main py environ fs = (Return 0%Z, fs1)
    /\ main py environ fs1 = (Return 0%Z, fs1).
Proof.
  intros sync_sha pr_number Hfs Hu Hu'.
  unfold main, bind, read_text, lift, write_text, modify, ret.
  fold sync_sha pr_number. rewrite Hfs, Hu.
  destruct (String.eqb updated content) eqn:Eq; cbn [negb].
  - apply String.eqb_eq in Eq. subst updated. eexists. split; [reflexivity|].
    rewrite Hfs, Hu, String.eqb_refl. reflexivity.
  - eexists. split; [reflexivity|]. cbn beta.
    rewrite String.eqb_refl, Hu', String.eqb_refl. reflexivity.
Qed.

End ParityProperties.

(** *** Worked examples for the updater *)

Section ParityExamples.

Import Parity Scenario.

(** The document of the test suite, sha [c0ffee], PR 7. *)
Lemma update_content_idempotent_witness :
  exists updated,
    update_content python parity_document "c0ffee" "7" = Return updated
    /\ update_content python updated "c0ffee" "7" = Return updated.
Proof.
  apply (update_content_idempotent python parity_document "c0ffee" "7").
  - reflexivity.
  - reflexivity.
  - reflexivity.
  - reflexivity.
  - intros _. reflexivity.
Defined.

(** C10, as stated, fails.  The content is the one line
    [# <!-- parity:auto:start -->]: a start marker and no end marker, so
    the first run inserts the block below the title.  The second run
    matches from the marker in the title to the end of the inserted
    block and replaces all of it: the title line loses its line feed and
    the blank line below it. *)
Lemma update_content_dangling_marker_counterexample :
  exists once twice,
    update_content python dangling_title "abc123" "17" = Return once
    /\ update_content python once "abc123" "17" = Return twice
    /\ String.length once = 188%nat
    /\ String.length twice = 160%nat
    /\ once <> twice.
Proof.
  eexists. eexists.
  split; [vm_compute; reflexivity|].
  split; [vm_compute; reflexivity|].
  split; [reflexivity|]. split; [reflexivity|].
  intros H. apply (f_equal String.length) in H. vm_compute in H.
  discriminate H.
Qed.

(** A sync sha that contains the end marker: the second run stops at the
    marker inside the sha and leaves the tail of the old block behind. *)
Lemma update_content_end_marker_in_sha :
  exists once twice,
    update_content python EmptyString END_MARKER "17" = Return once
    /\ update_content python once END_MARKER "17" = Return twice
    /\ String.length once <> String.length twice.
Proof.
  eexists. eexists.
  split; [vm_compute; reflexivity|].
  split; [vm_compute; reflexivity|].
  vm_compute. discriminate.
Qed.

(** A sync sha with a backslash: the first run, which inserts, writes the
    block as it is; the second, which substitutes, reads the block as a
    replacement template and turns the escape into a line feed. *)
Lemma update_content_backslash_in_sha :
  exists once twice,
    update_content python EmptyString sha_with_escape "17" = Return once
    /\ update_content python once sha_with_escape "17" = Return twice
    /\ String.length once <> String.length twice.
Proof.
  eexists. eexists.
  split; [vm_compute; reflexivity|].
  split; [vm_compute; reflexivity|].
  vm_compute. discriminate.
Qed.

End ParityExamples.

(** * Further properties *)

(** ** The HTTP bridge, beyond its three outcomes *)

Section BridgeCoverage.

Import Bridge.

Variable py : PyLib.
Variable os : OS.

Ltac step :=
  unfold handle_request, try_except, bind, lift, gets, emit, modify, ret,
    json_response; simpl.

(** X1.  A body that [request.json()] refuses is answered with HTTP 500
    and a JSON-RPC error of code -32603 that carries the parser's message
    and no id; no process is started and nothing but the log line is
    done. *)
Theorem unparseable_body_internal_error (request : Request) (st : state)
  (e : exn) :
  request_json request = Raise e ->
  handle_request py os request st
  = (Return {| status := 500;
               body := error_body_no_id (-32603) (exn_str e) |},
     {| self := self st;
        trace := (trace st ++ [Print ("Exception: " ++ exn_str e)])%list |}).
Proof.
  intros Hjson. step. rewrite Hjson. reflexivity.
Qed.

(** X4.  When the program cannot be started, the handler has tried once,
    has written nothing to any process, and answers HTTP 500 with code
    -32603 and the exception's text. *)
Theorem spawn_failure_internal_error (request : Request) (st : state)
  (data : value) (e : exn) :
  request_json request = Return data ->
  os (command (self st)) (args (self st)) (working_dir (self st))
    = Raise e ->
  handle_request py os request st
  = (Return {| status := 500;
               body := error_body_no_id (-32603) (exn_str e) |},
     {| self := self st;
        trace := (trace st
                  ++ [Spawn (command (self st)) (args (self st))
                        (working_dir (self st));
                      Print ("Exception: " ++ exn_str e)])%list |}).
Proof.
  intros Hjson Hos. step. rewrite Hjson. simpl. rewrite Hos. simpl.
  rewrite <- app_assoc. reflexivity.
Qed.

Ltac branches :=
  repeat match goal with
         | |- context [(returncode ?p =? 0)%Z] =>
             destruct (returncode p =? 0)%Z eqn:?; simpl
         | |- context [match ?b with [] => _ | _ :: _ => _ end] =>
             is_var b; destruct b; simpl
         | |- context [decode py ?b] => destruct (decode py b) eqn:?; simpl
         | |- context [json_loads py ?t] =>
             destruct (json_loads py t) eqn:?; simpl
         | |- context [value_get ?d ?k ?v] =>
             destruct (value_get d k v) eqn:?; simpl
         | |- context [match ?e with JSONDecodeError _ => _ | _ => _ end] =>
             is_var e; destruct e; simpl
         end.

Ltac prints :=
  repeat first [ apply Forall_nil
               | apply Forall_cons; [eexists; reflexivity|] ].

(** X5.  Once the body has parsed and the program has started, the
    process was started with the command, arguments and working directory
    of the bridge object, and it is fed exactly one thing: the serialised
    body followed by a line feed.  Whatever the outcome, all the handler
    does afterwards is write log lines. *)
Theorem backend_fed_one_request_line (request : Request) (st : state)
  (data : value) (proc : Process) :
  request_json request = Return data ->
  os (command (self st)) (args (self st)) (working_dir (self st))
    = Return proc ->
  exists rest,
    snd (handle_request py os request st)
    = {| self := self st;
         trace := (trace st
                   ++ Spawn (command (self st)) (args (self st))
                        (working_dir (self st))
                   :: Stdin (encode py (json_dumps py data ++ nl))
                   :: rest)%list |}
    /\ Forall (fun ev => exists line, ev = Print line) rest.
Proof.
  intros Hjson Hos. step. rewrite Hjson. simpl. rewrite Hos. simpl.
  destruct (communicate proc (encode py (json_dumps py data ++ nl)))
    as [[out err]|e] eqn:Hcomm; simpl.
  2:{ eexists. split; [rewrite <- !app_assoc; reflexivity|]. prints. }
  branches;
    (eexists; split; [rewrite <- !app_assoc; reflexivity|]; prints).
Qed.

(** X6.  The handler always answers, and only in two ways.  Status 200
    means the body parsed, the program started, it exited with code 0 and
    the answer's body is what its output parsed to.  Anything else is
    status 500 with a JSON-RPC error made by the bridge: code -32603 with
    or without an id, or code -32700 with an id. *)
Theorem answers_are_backend_json_or_bridge_errors (request : Request)
  (st : state) :
  exists resp,
    fst (handle_request py os request st) = Return resp
    /\ ((status resp = 200%Z
         /\ exists data proc out err text,
             request_json request = Return data
             /\ os (command (self st)) (args (self st))
                  (working_dir (self st)) = Return proc
             /\ communicate proc (encode py (json_dumps py data ++ nl))
                = Return (out, err)
             /\ returncode proc = 0%Z
             /\ decode py out = Return text
             /\ json_loads py text = Return (body resp))
        \/ (status resp = 500%Z
            /\ exists message,
                body resp = error_body_no_id (-32603) message
                \/ exists id,
                     body resp = error_body id (-32603) message
                     \/ body resp = error_body id (-32700) message)).
Proof.
  step.
  destruct (request_json request) as [data|e0] eqn:Hjson; simpl.
  2:{ eexists. split; [reflexivity|]. right. split; [reflexivity|].
      eexists. left. reflexivity. }
  destruct (os (command (self st)) (args (self st)) (working_dir (self st)))
    as [proc|e1] eqn:Hos; simpl.
  2:{ eexists. split; [reflexivity|]. right. split; [reflexivity|].
      eexists. left. reflexivity. }
  destruct (communicate proc (encode py (json_dumps py data ++ nl)))
    as [[out err]|e2] eqn:Hcomm; simpl.
  2:{ eexists. split; [reflexivity|]. right. split; [reflexivity|].
      eexists. left. reflexivity. }
  destruct (returncode proc =? 0)%Z eqn:Hcode; simpl.
  - apply Z.eqb_eq in Hcode.
    destruct (decode py out) as [text|e3] eqn:Hdec; simpl.
    + destruct (json_loads py text) as [response|e4] eqn:Hloads; simpl.
      * eexists. split; [reflexivity|]. left. split; [reflexivity|].
        exists data, proc, out, err, text. simpl. auto 10.
      * destruct e4; simpl;
          try (eexists; split; [reflexivity|]; right;
               split; [reflexivity|]; eexists; left; reflexivity).
        destruct (value_get data "id" VNone) as [id|e5]; simpl;
          eexists; (split; [reflexivity|]); right;
          (split; [reflexivity|]); eexists;
          [right; exists id; right; reflexivity|left; reflexivity].
    + destruct e3; simpl;
        eexists; (split; [reflexivity|]); right;
        (split; [reflexivity|]); eexists; left; reflexivity.
  - branches;
      eexists; (split; [reflexivity|]); right;
      (split; [reflexivity|]); eexists;
      first [ left; reflexivity
            | right; eexists; left; reflexivity ].
Qed.

End BridgeCoverage.

(** ** The reference backend, every method *)

Section MockBackendCoverage.

Import MockBackend.

Variable py : PyLib.

(** X7.  Whatever the reference backend returns is a JSON-RPC 2.0
    envelope: a dictionary with [jsonrpc] set to ["2.0"], the id of the
    request, and exactly one of [result] and [error]; and it has an
    [error] exactly when the method is none of the three it knows. *)
Theorem mock_response_envelope (self : MockMcpServer) (request : dict)
  (response : value) :
  handle_request py self request = Return response ->
  exists members,
    response = VDict members
    /\ dict_get members "jsonrpc" VNone = VStr "2.0"
    /\ dict_get members "id" VNone = dict_get request "id" VNone
    /\ dict_mem members "result" = negb (dict_mem members "error")
    /\ dict_mem members "error"
       = negb (value_is_str (dict_get request "method" VNone) "initialize"
               || value_is_str (dict_get request "method" VNone) "tools/list"
               || value_is_str (dict_get request "method" VNone)
                    "tools/call").
Proof.
  unfold handle_request.
  destruct (value_is_str (dict_get request "method" VNone) "initialize").
  { intros H. injection H as <-. eexists. repeat split. }
  destruct (value_is_str (dict_get request "method" VNone) "tools/list").
  { intros H. injection H as <-. eexists. repeat split. }
  destruct (value_is_str (dict_get request "method" VNone) "tools/call").
  { destruct (value_get (dict_get request "params" (VDict [])) "name" VNone);
      [|discriminate].
    destruct (value_get (dict_get request "params" (VDict [])) "arguments"
                (VDict [])); [|discriminate].
    intros H. injection H as <-. eexists. repeat split. }
  intros H. injection H as <-. eexists. repeat split.
Qed.

(** X8.  The reference backend raises in one situation only: the method
    is [tools/call] and the request has a [params] member that is not a
    dictionary; the exception is then the [AttributeError] of calling
    [get] on that member.  A request without [params] is served. *)
Theorem mock_raises_only_on_bad_params (self : MockMcpServer)
  (request : dict) :
  match handle_request py self request with
  | Return _ =>
      value_is_str (dict_get request "method" VNone) "tools/call" = false
      \/ exists d, dict_get request "params" (VDict []) = VDict d
  | Raise e =>
      value_is_str (dict_get request "method" VNone) "tools/call" = true
      /\ (forall d, dict_get request "params" (VDict []) <> VDict d)
      /\ dict_mem request "params" = true
      /\ e = AttributeError
               ("'" ++ type_name (dict_get request "params" (VDict []))
                ++ "' object has no attribute 'get'")
  end.
Proof.
  assert (Hdefault : forall d k dflt,
             dict_mem d k = false -> dict_get d k dflt = dflt).
  { intros d k dflt. induction d as [|[k' v] d IH]; simpl; [reflexivity|].
    destruct (String.eqb k' k); simpl; [discriminate|exact IH]. }
  unfold handle_request.
  destruct (value_is_str (dict_get request "method" VNone) "initialize")
    eqn:Hi.
  { left. destruct (dict_get request "method" VNone); try discriminate.
    simpl in Hi |- *. apply String.eqb_eq in Hi. now subst. }
  destruct (value_is_str (dict_get request "method" VNone) "tools/list")
    eqn:Hl.
  { left. destruct (dict_get request "method" VNone); try discriminate.
    simpl in Hl |- *. apply String.eqb_eq in Hl. now subst. }
  destruct (value_is_str (dict_get request "method" VNone) "tools/call")
    eqn:Hc; [|left; reflexivity].
  destruct (dict_get request "params" (VDict [])) as [| | | | | |d] eqn:Hp;
    simpl;
    try (split; [reflexivity|]; split; [discriminate|]; split;
         [|reflexivity];
         destruct (dict_mem request "params") eqn:Hm; [reflexivity|];
         rewrite (Hdefault _ _ _ Hm) in Hp; discriminate).
  right. exists d. reflexivity.
Qed.

(** X9.  [_execute_tool] knows one tool: it answers with mock papers
    exactly when the server is [semantic_scholar] or [arxiv] and the tool
    is [search_papers], and with [{"error": "Unknown tool: ..."}] in every
    other case; the arguments never matter; and each of the two servers
    lists a tool that it answers with [Unknown tool]. *)
Theorem only_search_papers_is_executable (self : MockMcpServer)
  (tool_name arguments : value) :
  (if (String.eqb (name self) "semantic_scholar"
       || String.eqb (name self) "arxiv")
      && value_is_str tool_name "search_papers"
   then dict_mem
          match _execute_tool py self tool_name arguments with
          | VDict d => d
          | _ => []
          end "papers" = true
   else _execute_tool py self tool_name arguments
        = VDict [("error", VStr ("Unknown tool: " ++ py_str py tool_name))])
  /\ _execute_tool py self tool_name arguments
     = _execute_tool py self tool_name VNone
  /\ (String.eqb (name self) "semantic_scholar"
      || String.eqb (name self) "arxiv" = true ->
      exists tools d,
        _get_tools self = VList tools
        /\ In (VDict d) tools
        /\ _execute_tool py self (dict_get d "name" VNone) arguments
           = VDict [("error",
                     VStr ("Unknown tool: "
                           ++ py_str py (dict_get d "name" VNone)))]).
Proof.
  split; [|split].
  - unfold _execute_tool.
    destruct (String.eqb (name self) "semantic_scholar"); simpl.
    + destruct (value_is_str tool_name "search_papers"); simpl;
        [reflexivity|].
      destruct (String.eqb (name self) "arxiv"); reflexivity.
    + destruct (String.eqb (name self) "arxiv"); simpl; [|reflexivity].
      destruct (value_is_str tool_name "search_papers"); reflexivity.
  - reflexivity.
  - unfold _get_tools, _execute_tool.
    destruct (String.eqb (name self) "semantic_scholar"); simpl.
    + intros _. eexists. eexists. split; [reflexivity|].
      split; [right; left; reflexivity|].
      simpl. destruct (String.eqb (name self) "arxiv"); reflexivity.
    + destruct (String.eqb (name self) "arxiv"); simpl; [|discriminate].
      intros _. eexists. eexists. split; [reflexivity|].
      split; [right; left; reflexivity|]. reflexivity.
Qed.

End MockBackendCoverage.

(** ** The job-side client, request and answer *)

Section ToolsCoverage.

Import Tools.

Variable py : PyLib.
Variable env : Env.

Lemma rstrip_tail (c : ascii) (u t : string) :
  rstrip c t = EmptyString -> rstrip c (u ++ t) = rstrip c u.
Proof.
  intros Ht. induction u as [|a u IH]; simpl; [exact Ht|].
  now rewrite IH.
Qed.

Lemma _env_set (e : Env) (v x : string) :
  environ e v = Some x -> x <> EmptyString -> _env e v = Return x.
Proof.
  intros H Hx. unfold _env. rewrite H.
  destruct (String.eqb x EmptyString) eqn:E; [|reflexivity].
  apply String.eqb_eq in E. contradiction.
Qed.

(** X10.  Slashes at the end of the orchestrator address do not change
    the base URL: two environments whose addresses differ only by such
    slashes, with the same job identifier, give the same [_base_url]. *)
Theorem trailing_slashes_ignored (other : Env) (u t : string) :
  environ env "IRONCLAW_ORCHESTRATOR_URL" = Some u ->
  u <> EmptyString ->
  rstrip "/"%char t = EmptyString ->
  environ other "IRONCLAW_ORCHESTRATOR_URL" = Some (u ++ t) ->
  environ other "IRONCLAW_JOB_ID" = environ env "IRONCLAW_JOB_ID" ->
  _base_url other = _base_url env.
Proof.
  intros Hu Hne Ht Hother Hjob. unfold _base_url.
  rewrite (_env_set env _ _ Hu Hne).
  rewrite (_env_set other _ _ Hother)
    by (destruct u; [contradiction|discriminate]).
  rewrite (rstrip_tail _ _ _ Ht).
  unfold _env. rewrite Hjob. reflexivity.
Qed.

(** X11.  With the three variables set to non-empty values [u], [j] and
    [t], the address that goes to [Request] is
    [{u without trailing slashes}/worker/{j}/tools/call].  When
    [Request] accepts it, [call_tool] makes one POST request to that
    address, with a JSON content type and the header
    [Authorization: Bearer {t}]; when [Request] refuses it, [call_tool]
    raises what [Request] raises and makes no request. *)
Theorem call_tool_request_format (name : string) (params : value)
  (timeout_secs : option number) (log : netlog) (u j t : string) :
  environ env "IRONCLAW_ORCHESTRATOR_URL" = Some u -> u <> EmptyString ->
  environ env "IRONCLAW_JOB_ID" = Some j -> j <> EmptyString ->
  environ env "IRONCLAW_WORKER_TOKEN" = Some t -> t <> EmptyString ->
  (check_url py ((rstrip "/"%char u ++ "/worker/" ++ j) ++ "/tools/call")
   = Return tt ->
   exists body,
     snd (call_tool py env name params timeout_secs log)
     = List.app log
         [({| url := (rstrip "/"%char u ++ "/worker/" ++ j)
                       ++ "/tools/call";
                data := body;
                headers := [("Content-Type", "application/json");
                            ("Authorization", "Bearer " ++ t)];
                http_method := "POST" |},
             transport_timeout timeout_secs)])
  /\ (forall e,
        check_url py ((rstrip "/"%char u ++ "/worker/" ++ j)
                      ++ "/tools/call")
        = Raise e ->
        call_tool py env name params timeout_secs log = (Raise e, log)).
Proof.
  intros Hu Hune Hj Hjne Ht Htne.
  assert (Hbase : _base_url env
                  = Return (rstrip "/"%char u ++ "/worker/" ++ j)).
  { unfold _base_url.
    now rewrite (_env_set env _ _ Hu Hune), (_env_set env _ _ Hj Hjne). }
  assert (Htoken : _token env = Return t).
  { unfold _token. now apply _env_set. }
  split.
  - intros Hcheck. eexists.
    exact (call_tool_sends py env _ _ _ _ _ _ Hbase Htoken Hcheck).
  - intros e Hcheck.
    unfold call_tool, bind, lift, new_request.
    rewrite Hbase, Htoken, Hcheck. reflexivity.
Qed.

(** X12.  When the call reaches the network with an integer timeout or
    none, the transport waits longer than the tool may run: with no
    timeout given it waits 65 seconds, and with the integer [ts] given
    it waits at least five seconds more than the [timeout_secs] it sends
    (which is clamped to 300 while the wait is not): [ts + 5] seconds,
    and 65 when [ts] is zero. *)
Theorem transport_outlasts_request (name : string) (params : value)
  (timeout_secs : option Z) (log : netlog) :
  reaches_network py env ->
  exists req wait,
    snd (call_tool py env name params (option_map NInt timeout_secs) log)
    = (log ++ [(req, SInt wait)])%list
    /\ data req
       = encode py
           (json_dumps py
              (VDict (request_body name params
                        (option_map NInt timeout_secs))))
    /\ match timeout_secs with
       | None =>
           wait = 65%Z
           /\ dict_mem (request_body name params None) "timeout_secs"
              = false
       | Some ts =>
           exists sent,
             dict_get (request_body name params (Some (NInt ts)))
               "timeout_secs" VNone = VInt sent
             /\ sent = Z.min ts 300
             /\ (sent + 5 <= wait)%Z
             /\ (ts <> 0%Z -> wait = (ts + 5)%Z)
             /\ (ts = 0%Z -> wait = 65%Z)
       end.
Proof.
  intros [base [token [Hbase [Htoken Hcheck]]]].
  destruct timeout_secs as [ts|]; cbn [option_map].
  - eexists. exists ((if (ts =? 0)%Z then 60 else ts) + 5)%Z.
    split; [exact (call_tool_sends py env _ _ _ _ _ _ Hbase Htoken Hcheck)|].
    split; [reflexivity|].
    exists (Z.min ts 300). split; [reflexivity|]. split; [reflexivity|].
    split; [|split].
    + destruct (ts =? 0)%Z eqn:E; [apply Z.eqb_eq in E|]; lia.
    + intros Hne. apply Z.eqb_neq in Hne. now rewrite Hne.
    + intros ->. reflexivity.
  - eexists. exists 65%Z.
    split; [exact (call_tool_sends py env _ _ _ _ _ _ Hbase Htoken Hcheck)|].
    split; [reflexivity|]. split; [reflexivity|].
    simpl. destruct (truthy params); reflexivity.
Qed.

Ltac reduce := cbv beta iota zeta delta [fst snd].

Ltac answer Hbase Htoken Hcheck :=
  unfold call_tool, bind, lift, try_except, modify, raise, new_request;
  rewrite Hbase, Htoken, Hcheck; reduce.

Lemma dict_get_absent (d : dict) (k : string) (default : value) :
  dict_mem d k = false -> dict_get d k default = default.
Proof.
  induction d as [|[k' v] d IH]; simpl; [reflexivity|].
  destruct (String.eqb k' k); simpl; [discriminate|exact IH].
Qed.

(** X13.  When the call reaches the network, a 2xx answer is read by the
    truth value of its [success] member, not by its being [true] or
    [false]: anything falsy, a missing member included, raises with the
    tool name and the [error] member (["unknown error"] when there is
    none); anything truthy returns the [output] member, and the empty
    string when there is none. *)
Theorem answer_read_by_truthiness (name : string) (params : value)
  (timeout_secs : option number) (log : netlog) :
  reaches_network py env ->
  exists req,
    snd (call_tool py env name params timeout_secs log)
    = (log ++ [(req, transport_timeout timeout_secs)])%list
    /\ forall raw text d,
         urlopen env req (transport_timeout timeout_secs) = Return raw ->
         decode py raw = Return text ->
         json_loads py text = Return (VDict d) ->
         (truthy (dict_get d "success" VNone) = false ->
          fst (call_tool py env name params timeout_secs log)
          = Raise (RuntimeError
                     ("Tool '" ++ name ++ "' failed: "
                      ++ py_str py
                           (dict_get d "error" (VStr "unknown error")))))
         /\ (dict_mem d "success" = false -> dict_mem d "error" = false ->
             fst (call_tool py env name params timeout_secs log)
             = Raise (RuntimeError
                        ("Tool '" ++ name ++ "' failed: unknown error")))
         /\ (truthy (dict_get d "success" VNone) = true ->
             fst (call_tool py env name params timeout_secs log)
             = Return (dict_get d "output" (VStr EmptyString)))
         /\ (truthy (dict_get d "success" VNone) = true ->
             dict_mem d "output" = false ->
             fst (call_tool py env name params timeout_secs log)
             = Return (VStr EmptyString)).
Proof.
  intros [base [token [Hb [Ht Hc]]]].
  eexists. split; [exact (call_tool_sends py env _ _ _ _ _ _ Hb Ht Hc)|].
  intros raw text d Hurl Hdec Hloads.
  assert (Hfalse : truthy (dict_get d "success" VNone) = false ->
                   fst (call_tool py env name params timeout_secs log)
                   = Raise (RuntimeError
                              ("Tool '" ++ name ++ "' failed: "
                               ++ py_str py
                                    (dict_get d "error"
                                       (VStr "unknown error"))))).
  { intros Hs. answer Hb Ht Hc. rewrite Hurl. reduce.
    rewrite Hdec. reduce. rewrite Hloads. reduce. simpl value_get. reduce.
    rewrite Hs. reflexivity. }
  assert (Htrue : truthy (dict_get d "success" VNone) = true ->
                  fst (call_tool py env name params timeout_secs log)
                  = Return (dict_get d "output" (VStr EmptyString))).
  { intros Hs. answer Hb Ht Hc. rewrite Hurl. reduce.
    rewrite Hdec. reduce. rewrite Hloads. reduce. simpl value_get. reduce.
    rewrite Hs. reflexivity. }
  split; [exact Hfalse|]. split; [|split; [exact Htrue|]].
  - intros Hs He. rewrite Hfalse.
    + now rewrite (dict_get_absent _ _ _ He).
    + now rewrite (dict_get_absent _ _ _ Hs).
  - intros Hs Ho. rewrite (Htrue Hs). now rewrite (dict_get_absent _ _ _ Ho).
Qed.

(** X14.  When the call reaches the network, a 2xx answer that cannot be
    read is not turned into a [RuntimeError]: bytes that are no UTF-8
    text raise the decoder's [UnicodeDecodeError], text that is no JSON
    raises the parser's [JSONDecodeError], and JSON that is no object
    raises the [AttributeError] of calling [get] on it. *)
Theorem unreadable_answer_raises_as_is (name : string) (params : value)
  (timeout_secs : option number) (log : netlog) :
  reaches_network py env ->
  exists req,
    snd (call_tool py env name params timeout_secs log)
    = (log ++ [(req, transport_timeout timeout_secs)])%list
    /\ (forall raw why,
          urlopen env req (transport_timeout timeout_secs) = Return raw ->
          decode py raw = Raise (UnicodeDecodeError why) ->
          fst (call_tool py env name params timeout_secs log)
          = Raise (UnicodeDecodeError why))
    /\ (forall raw text why,
          urlopen env req (transport_timeout timeout_secs) = Return raw ->
          decode py raw = Return text ->
          json_loads py text = Raise (JSONDecodeError why) ->
          fst (call_tool py env name params timeout_secs log)
          = Raise (JSONDecodeError why))
    /\ (forall raw text v,
          urlopen env req (transport_timeout timeout_secs) = Return raw ->
          decode py raw = Return text ->
          json_loads py text = Return v ->
          (forall d, v <> VDict d) ->
          fst (call_tool py env name params timeout_secs log)
          = Raise (AttributeError
                     ("'" ++ type_name v
                      ++ "' object has no attribute 'get'"))).
Proof.
  intros [base [token [Hb [Ht Hc]]]].
  eexists. split; [exact (call_tool_sends py env _ _ _ _ _ _ Hb Ht Hc)|].
  split; [|split].
  - intros raw why Hurl Hdec. answer Hb Ht Hc. rewrite Hurl. reduce.
    rewrite Hdec. reflexivity.
  - intros raw text why Hurl Hdec Hloads. answer Hb Ht Hc.
    rewrite Hurl. reduce. rewrite Hdec. reduce. rewrite Hloads.
    reflexivity.
  - intros raw text v Hurl Hdec Hloads Hv. answer Hb Ht Hc.
    rewrite Hurl. reduce. rewrite Hdec. reduce. rewrite Hloads. reduce.
    destruct v; try reflexivity. exfalso. now apply (Hv d).
Qed.

(** X15.  When the call reaches the network, each convenience call is
    one generic call.  [read_file] and [write_file] send their path (and
    content) with no [timeout_secs] and wait 65 seconds.  [shell] sends
    its command, and [http_get] the URL with method [GET] and a
    [headers] member only when it is given headers that are not empty;
    both send [timeout_secs = min(int(t), 300)] for the timeout [t] they
    are given and no [timeout_secs] for [None].  With the defaults of
    their signatures [shell] sends 60 and waits 65 seconds, [http_get]
    sends 30 and waits 35. *)
Theorem convenience_calls_bodies (log : netlog) (path content command
  target : string) (hdrs : value) (timeout_secs : option number) :
  reaches_network py env ->
  (exists req,
      snd (read_file py env path log) = (log ++ [(req, SInt 65)])%list
      /\ data req
         = encode py
             (json_dumps py
                (VDict [("tool_name", VStr "read_file");
                        ("parameters", VDict [("path", VStr path)])])))
  /\ (exists req,
        snd (write_file py env path content log)
        = (log ++ [(req, SInt 65)])%list
        /\ data req
           = encode py
               (json_dumps py
                  (VDict [("tool_name", VStr "write_file");
                          ("parameters",
                           VDict [("path", VStr path);
                                  ("content", VStr content)])])))
  /\ (exists req,
        snd (shell py env command timeout_secs log)
        = (log ++ [(req, transport_timeout timeout_secs)])%list
        /\ data req
           = encode py
               (json_dumps py
                  (VDict
                     (("tool_name", VStr "shell")
                      :: ("parameters", VDict [("command", VStr command)])
                      :: match timeout_secs with
                         | Some t =>
                             [("timeout_secs",
                               VInt (Z.min (py_int t) 300))]
                         | None => []
                         end))))
  /\ (exists req,
        snd (http_get py env target hdrs timeout_secs log)
        = (log ++ [(req, transport_timeout timeout_secs)])%list
        /\ data req
           = encode py
               (json_dumps py
                  (VDict
                     (("tool_name", VStr "http")
                      :: ("parameters",
                          VDict (("url", VStr target)
                                 :: ("method", VStr "GET")
                                 :: if truthy hdrs
                                    then [("headers", hdrs)] else []))
                      :: match timeout_secs with
                         | Some t =>
                             [("timeout_secs",
                               VInt (Z.min (py_int t) 300))]
                         | None => []
                         end))))
  /\ (exists req,
        snd (shell py env command shell_default_timeout log)
        = (log ++ [(req, SInt 65)])%list
        /\ data req
           = encode py
               (json_dumps py
                  (VDict [("tool_name", VStr "shell");
                          ("parameters", VDict [("command", VStr command)]);
                          ("timeout_secs", VInt 60)])))
  /\ (exists req,
        snd (http_get py env target VNone http_get_default_timeout log)
        = (log ++ [(req, SInt 35)])%list
        /\ data req
           = encode py
               (json_dumps py
                  (VDict [("tool_name", VStr "http");
                          ("parameters",
                           VDict [("url", VStr target);
                                  ("method", VStr "GET")]);
                          ("timeout_secs", VInt 30)]))).
Proof.
  intros [base [token [Hb [Ht Hc]]]].
  unfold read_file, write_file, shell, http_get, shell_default_timeout,
    http_get_default_timeout.
  split; [|split; [|split; [|split; [|split]]]].
  - eexists. rewrite (call_tool_sends py env _ _ _ _ _ _ Hb Ht Hc).
    split; reflexivity.
  - eexists. rewrite (call_tool_sends py env _ _ _ _ _ _ Hb Ht Hc).
    split; reflexivity.
  - eexists. rewrite (call_tool_sends py env _ _ _ _ _ _ Hb Ht Hc).
    split; [reflexivity|]. destruct timeout_secs; reflexivity.
  - eexists. rewrite (call_tool_sends py env _ _ _ _ _ _ Hb Ht Hc).
    split; [reflexivity|].
    destruct (truthy hdrs), timeout_secs; reflexivity.
  - eexists. rewrite (call_tool_sends py env _ _ _ _ _ _ Hb Ht Hc).
    split; reflexivity.
  - eexists. rewrite (call_tool_sends py env _ _ _ _ _ _ Hb Ht Hc).
    split; reflexivity.
Qed.

End ToolsCoverage.

(** ** The updater, what it keeps and what it touches *)

Section ParityCoverage.

Import Parity.

Variable py : PyLib.

(** The text before the leftmost match holds no start marker. *)
Lemma search_before_has_no_start (s before m rest : string) :
  search s = Some (before, m, rest) ->
  contains START_MARKER before = false.
Proof.
  revert before. induction s as [|c s IH]; intros before;
    rewrite search_eq.
  - destruct (match_here EmptyString) as [[m0 r0]|]; [|discriminate].
    intros H. assert (before = EmptyString) as -> by congruence.
    reflexivity.
  - destruct (match_here (String c s)) as [[m0 r0]|] eqn:E.
    + intros H. assert (before = EmptyString) as -> by congruence.
      reflexivity.
    + destruct (search s) as [[[b' m'] r']|] eqn:E'; [|discriminate].
      intros H.
      assert (before = String c b') as -> by congruence.
      assert (m' = m /\ r' = rest) as [-> ->] by (split; congruence).
      pose proof (no_match_no_start _ _ _ _ _ E E') as Hno.
      destruct (search_Some _ _ _ _ E') as [Hcut _].
      rewrite contains_eq.
      destruct (strip_prefix START_MARKER (String c b')) as [r|] eqn:Es.
      * pose proof (strip_prefix_extend _ _ _ (m ++ rest) Es) as Hx.
        cbn [append] in Hx. rewrite <- Hcut, Hno in Hx. discriminate.
      * apply (IH _ eq_refl).
Qed.

(** What the lazy scan matched ends with the end marker, or with the end
    marker and one line feed. *)
Lemma lazy_to_end_tail (s m rest : string) :
  lazy_to_end s = Some (m, rest) ->
  exists x, m = x ++ END_MARKER \/ m = x ++ END_MARKER ++ nl.
Proof.
  revert m rest. induction s as [|c s IH]; intros m rest;
    rewrite lazy_to_end_eq.
  - destruct (strip_prefix END_MARKER EmptyString) as [r|] eqn:E;
      [discriminate E|discriminate].
  - destruct (strip_prefix END_MARKER (String c s)) as [r|] eqn:E.
    + destruct (strip_prefix nl r) as [r'|]; intros H; exists EmptyString.
      * right. cbn [append]. congruence.
      * left. cbn [append]. congruence.
    + destruct (lazy_to_end s) as [[m' r']|]; [|discriminate].
      intros H. destruct (IH _ _ eq_refl) as [x [Hx|Hx]];
        exists (String c x); [left|right]; cbn [append]; congruence.
Qed.

(** X16.  When the content holds a block, [update_content] replaces the
    leftmost one and nothing else: the text before it, which holds no
    start marker, and the text after it come back as they were, and what
    is dropped runs from a start marker to an end marker and at most one
    line feed after it. *)
Theorem replace_keeps_surroundings (content sync_sha pr_number before m
  rest : string) :
  contains (String backslash EmptyString) sync_sha = false ->
  contains (String backslash EmptyString) pr_number = false ->
  search content = Some (before, m, rest) ->
  content = before ++ m ++ rest
  /\ contains START_MARKER before = false
  /\ (exists x, m = START_MARKER ++ x ++ END_MARKER
                \/ m = START_MARKER ++ x ++ END_MARKER ++ nl)
  /\ update_content py content sync_sha pr_number
     = Return (before ++ build_auto_block sync_sha pr_number ++ rest).
Proof.
  intros Hsha Hpr Hs.
  split; [apply (search_Some _ _ _ _ Hs)|].
  split; [apply (search_before_has_no_start _ _ _ _ Hs)|]. split.
  - clear Hsha Hpr. revert before Hs.
    induction content as [|c s IH]; intros before; rewrite search_eq;
      unfold match_here.
    + cbn. discriminate.
    + destruct (strip_prefix START_MARKER (String c s)) as [r|].
      * destruct (lazy_to_end r) as [[m' r']|] eqn:El.
        -- intros H. assert (m = START_MARKER ++ m') as -> by congruence.
           destruct (lazy_to_end_tail _ _ _ El) as [x [Hx|Hx]];
             exists x; [left|right]; now rewrite Hx.
        -- destruct (search s) as [[[b' m1] r1]|]; [|discriminate].
           intros H. apply (IH b'). congruence.
      * destruct (search s) as [[[b' m1] r1]|]; [|discriminate].
        intros H. apply (IH b'). congruence.
  - unfold update_content. rewrite Hs.
    now rewrite (expand_template_plain py _ _
                   (block_has_no_backslash _ _ Hsha Hpr)).
Qed.

(** X17.  When the content holds no block, [update_content] cannot
    fail, whatever the sync sha and the PR number are, and it only adds:
    the content is cut in two and the block, unchanged, is put in the
    cut, with at most one line feed before it and one after it. *)
Theorem insert_keeps_content (content sync_sha pr_number : string) :
  search content = None ->
  exists above below lead trail,
    content = above ++ below
    /\ update_content py content sync_sha pr_number
       = Return (above ++ lead ++ build_auto_block sync_sha pr_number
                 ++ trail ++ below)
    /\ (lead = EmptyString \/ lead = nl)
    /\ (trail = EmptyString \/ trail = nl).
Proof.
  intros Hs. unfold update_content. rewrite Hs.
  destruct (title_index (splitlines content)) as [idx|] eqn:Et.
  - destruct (insert_after_title content
                (build_auto_block sync_sha pr_number))
      as [above [below [Hcut Hins]]]; [congruence|].
    exists above, below, nl, nl. rewrite Hins. auto.
  - unfold insert_block_after_title. rewrite Et.
    destruct (String.eqb content EmptyString) eqn:E.
    + apply String.eqb_eq in E. subst content.
      exists EmptyString, EmptyString, EmptyString, EmptyString.
      cbn [append]. rewrite append_nil_r. auto.
    + exists EmptyString, content, EmptyString, nl. cbn [append]. auto.
Qed.

(** The lines before the first title, the title, and the lines after. *)
Lemma title_index_Some (lines : list string) (idx : nat) :
  title_index lines = Some idx ->
  exists above title below,
    lines = (above ++ title :: below)%list
    /\ List.length above = idx
    /\ Forall (fun l => String.prefix "# " l = false) above
    /\ String.prefix "# " title = true.
Proof.
  revert idx. induction lines as [|l lines IH]; intros idx;
    cbn [title_index]; [discriminate|].
  destruct (String.prefix "# " l) eqn:Hp.
  - intros H. injection H as <-. exists [], l, lines. auto.
  - destruct (title_index lines) as [i|]; [|discriminate].
    intros H. injection H as <-.
    destruct (IH _ eq_refl) as [above [title [below [Hl [Hlen [Hab Ht]]]]]].
    exists (l :: above), title, below. rewrite Hl. cbn [List.length].
    split; [reflexivity|]. split; [now rewrite Hlen|]. auto.
Qed.

(** The index of the first title, from the lines around it. *)
Lemma title_index_first (above : list string) (title : string)
  (rest : list string) :
  Forall (fun l => String.prefix "# " l = false) above ->
  String.prefix "# " title = true ->
  title_index (above ++ title :: rest) = Some (List.length above).
Proof.
  intros Hab Ht. induction Hab as [|l above Hl Hab IH];
    cbn [title_index List.app List.length].
  - now rewrite Ht.
  - now rewrite Hl, IH.
Qed.

(** X18.  Let the lines of the content be [above], then [title], then
    [rest], where no line of [above] starts with ["# "] and [title]
    does: [title] is the first such line.  [insert_block_after_title]
    keeps [above] and [title] in front; when [rest] starts with a line
    of nothing but white space, that line stays in front too and the
    block follows it; otherwise the block follows the title directly.
    The block stands between two line feeds, and the remaining lines
    follow unchanged. *)
Theorem block_goes_below_title (content block : string)
  (above : list string) (title : string) (rest : list string) :
  splitlines content = (above ++ title :: rest)%list ->
  Forall (fun l => String.prefix "# " l = false) above ->
  String.prefix "# " title = true ->
  insert_block_after_title content block
  = match rest with
    | line :: rest' =>
        if all_whitespace line
        then join above ++ title ++ line ++ nl ++ block ++ nl ++ join rest'
        else join above ++ title ++ nl ++ block ++ nl ++ join rest
    | [] => join above ++ title ++ nl ++ block ++ nl
    end.
Proof.
  intros Hl Hab Hti. unfold insert_block_after_title. rewrite Hl.
  rewrite (title_index_first _ _ _ Hab Hti).
  set (idx := List.length above).
  assert (Hn : nth_error (above ++ title :: rest) (idx + 1)
               = nth_error rest 0).
  { rewrite nth_error_app2 by (unfold idx; lia).
    replace (idx + 1 - List.length above)%nat with 1%nat
      by (unfold idx; lia).
    reflexivity. }
  assert (Hfirst : forall k,
             firstn (idx + 1 + k) (above ++ title :: rest)
             = (above ++ title :: firstn k rest)%list).
  { intros k. rewrite firstn_app, firstn_all2 by (unfold idx; lia).
    replace (idx + 1 + k - List.length above)%nat with (S k)
      by (unfold idx; lia).
    reflexivity. }
  assert (Hskip : forall k,
             skipn (idx + 1 + k) (above ++ title :: rest) = skipn k rest).
  { intros k. rewrite skipn_app, skipn_all2 by (unfold idx; lia).
    replace (idx + 1 + k - List.length above)%nat with (S k)
      by (unfold idx; lia).
    reflexivity. }
  cbv zeta. rewrite Hn.
  destruct rest as [|line rest']; cbn [nth_error].
  - rewrite <- (Nat.add_0_r (idx + 1)), Hfirst, Hskip.
    cbn [firstn skipn]. rewrite !join_app. cbn [join fold_right append].
    now rewrite !append_nil_r, !append_assoc.
  - destruct (all_whitespace line) eqn:Hw.
    + rewrite Hfirst, Hskip. cbn [firstn skipn].
      rewrite !join_app. cbn [join fold_right append].
      change (fold_right append EmptyString rest') with (join rest').
      now rewrite !append_nil_r, !append_assoc.
    + rewrite <- (Nat.add_0_r (idx + 1)), Hfirst, Hskip.
      cbn [firstn skipn]. rewrite !join_app.
      cbn [join fold_right append].
      change (fold_right append EmptyString rest') with (join rest').
      now rewrite !append_nil_r, !append_assoc.
Qed.

(** X19.  The block that [build_auto_block] writes is a block that the
    pattern finds: searched at the head of any text, the match is the
    block itself, its last line feed included, and nothing of what
    follows it. *)
Theorem generated_block_is_found_whole (sync_sha pr_number rest : string) :
  contains END_MARKER sync_sha = false ->
  contains END_MARKER pr_number = false ->
  search (build_auto_block sync_sha pr_number ++ rest)
  = Some (EmptyString, build_auto_block sync_sha pr_number, rest).
Proof.
  intros Hsha Hpr.
  now rewrite search_eq, (block_matches_itself _ _ _ Hsha Hpr).
Qed.

(** X20.  [main] reads and writes one file, the one its environment
    names ([FEATURE_PARITY.md] by default): every other file is left as
    it was; if that file is missing, [main] raises and writes nothing;
    if the update returns the content it was given, nothing is written;
    and whenever [main] returns, it returns 0. *)
Theorem main_touches_only_parity_file (environ : string -> option string)
  (fs : files) :
  (forall p,
      p <> getenv environ "FEATURE_PARITY_PATH" "FEATURE_PARITY.md" ->
      snd (main py environ fs) p = fs p)
  /\ (fs (getenv environ "FEATURE_PARITY_PATH" "FEATURE_PARITY.md") = None ->
      main py environ fs
      = (Raise (OtherError "FileNotFoundError"
                  (getenv environ "FEATURE_PARITY_PATH" "FEATURE_PARITY.md")),
         fs))
  /\ (forall content,
        fs (getenv environ "FEATURE_PARITY_PATH" "FEATURE_PARITY.md")
        = Some content ->
        update_content py content
          (getenv environ "PARITY_SYNC_SHA" "unknown")
          (getenv environ "PARITY_PR_NUMBER" "unknown") = Return content ->
        main py environ fs = (Return 0%Z, fs))
  /\ (forall z, fst (main py environ fs) = Return z -> z = 0%Z).
Proof.
  unfold main, bind, read_text, lift, write_text, modify, ret.
  set (path := getenv environ "FEATURE_PARITY_PATH" "FEATURE_PARITY.md").
  set (sha := getenv environ "PARITY_SYNC_SHA" "unknown").
  set (pr := getenv environ "PARITY_PR_NUMBER" "unknown").
  split; [|split; [|split]].
  - intros p Hp. destruct (fs path) as [content|]; [|reflexivity].
    destruct (update_content py content sha pr) as [updated|e];
      [|reflexivity].
    destruct (negb (String.eqb updated content)); [|reflexivity].
    cbn [snd]. destruct (String.eqb p path) eqn:E; [|reflexivity].
    apply String.eqb_eq in E. contradiction.
  - intros Hnone. now rewrite Hnone.
  - intros content Hfs Hu. rewrite Hfs, Hu, String.eqb_refl. reflexivity.
  - intros z. destruct (fs path) as [content|]; [|discriminate].
    destruct (update_content py content sha pr) as [updated|e];
      [|discriminate].
    destruct (negb (String.eqb updated content)); cbn [fst]; congruence.
Qed.

End ParityCoverage.


(** ** Worked examples for the further properties *)

Section CoverageExamples.

Import Scenario.

(** A body that is not JSON. *)
Lemma unparseable_body_internal_error_witness :
  Bridge.handle_request python (running (backend [] [] 0))
    malformed_request fresh
  = (Return
       {| Bridge.status := 500;
          Bridge.body :=
            Bridge.error_body_no_id (-32603)
              "Expecting value: line 1 column 1 (char 0)" |},
     {| Bridge.self := semantic_scholar;
        Bridge.trace :=
          [Bridge.Print
             "Exception: Expecting value: line 1 column 1 (char 0)"] |}).
Proof.
  apply (unparseable_body_internal_error python
           (running (backend [] [] 0)) malformed_request fresh
           (JSONDecodeError "Expecting value: line 1 column 1 (char 0)")).
  reflexivity.
Defined.

(** A backend that exits with code 1 after writing a Latin-1 byte. *)
Lemma nonzero_exit_undecodable_stderr_witness :
  fst (Bridge.handle_request python
         (running (backend [] latin1_bytes 1)) (request_of initialize7)
         fresh)
  = Return {| Bridge.status := 500;
              Bridge.body :=
                Bridge.error_body_no_id (-32603)
                  "'utf-8' codec can't decode bytes" |}.
Proof.
  apply (nonzero_exit_undecodable_stderr python
           (running (backend [] latin1_bytes 1)) (request_of initialize7)
           fresh initialize7 (backend [] latin1_bytes 1) [] latin1_bytes
           (UnicodeDecodeError "'utf-8' codec can't decode bytes")).
  - reflexivity.
  - reflexivity.
  - reflexivity.
  - simpl. discriminate.
  - discriminate.
  - reflexivity.
Defined.

(** A backend that exits with code 0 after printing a Latin-1 byte. *)
Lemma undecodable_output_internal_error_witness :
  fst (Bridge.handle_request python
         (running (backend latin1_bytes [] 0)) (request_of initialize7)
         fresh)
  = Return {| Bridge.status := 500;
              Bridge.body :=
                Bridge.error_body_no_id (-32603)
                  "'utf-8' codec can't decode bytes" |}.
Proof.
  apply (undecodable_output_internal_error python
           (running (backend latin1_bytes [] 0)) (request_of initialize7)
           fresh initialize7 (backend latin1_bytes [] 0) latin1_bytes []
           (UnicodeDecodeError "'utf-8' codec can't decode bytes")).
  - reflexivity.
  - reflexivity.
  - reflexivity.
  - reflexivity.
  - reflexivity.
Defined.

(** A program that is not installed. *)
Lemma spawn_failure_internal_error_witness :
  Bridge.handle_request python not_installed (request_of initialize7) fresh
  = (Return
       {| Bridge.status := 500;
          Bridge.body :=
            Bridge.error_body_no_id (-32603)
              "[Errno 2] No such file or directory: 'python'" |},
     {| Bridge.self := semantic_scholar;
        Bridge.trace :=
          [Bridge.Spawn "python" ["semantic_scholar_server.py"] None;
           Bridge.Print
             "Exception: [Errno 2] No such file or directory: 'python'"] |}).
Proof.
  apply (spawn_failure_internal_error python not_installed
           (request_of initialize7) fresh initialize7
           (OtherError "FileNotFoundError"
              "[Errno 2] No such file or directory: 'python'")).
  - reflexivity.
  - reflexivity.
Defined.

(** A backend that answers. *)
Lemma backend_fed_one_request_line_witness :
  exists rest,
    snd (Bridge.handle_request python
           (running (backend (ascii_bytes (Examples.dumps answer7)) [] 0))
           (request_of initialize7) fresh)
    = {| Bridge.self := semantic_scholar;
         Bridge.trace :=
           Bridge.Spawn "python" ["semantic_scholar_server.py"] None
           :: Bridge.Stdin
                (encode python (json_dumps python initialize7 ++ nl))
           :: rest |}
    /\ Forall (fun ev => exists line, ev = Bridge.Print line) rest.
Proof.
  apply (backend_fed_one_request_line python
           (running (backend (ascii_bytes (Examples.dumps answer7)) [] 0))
           (request_of initialize7) fresh initialize7
           (backend (ascii_bytes (Examples.dumps answer7)) [] 0)).
  - reflexivity.
  - reflexivity.
Defined.

(** The [initialize] call with id 7, sent to the mock backend. *)
Lemma mock_response_envelope_witness :
  exists members,
    VDict
      [("jsonrpc", VStr "2.0");
       ("id", VInt 7);
       ("result",
        VDict [("protocolVersion", VStr "2024-11-05");
               ("capabilities", VDict [("tools", VDict [])]);
               ("serverInfo",
                VDict [("name", VStr "semantic_scholar");
                       ("version", VStr "0.1.0")])])]
    = VDict members
    /\ dict_get members "jsonrpc" VNone = VStr "2.0"
    /\ dict_get members "id" VNone = VInt 7
    /\ dict_mem members "result" = negb (dict_mem members "error")
    /\ dict_mem members "error" = false.
Proof.
  apply (mock_response_envelope python
           {| MockBackend.name := "semantic_scholar" |}
           initialize7_members).
  reflexivity.
Defined.

(** The same job environment, once with a slash after the address. *)
Lemma trailing_slashes_ignored_witness :
  Tools._base_url
    {| Tools.environ := job_environment_slash;
       Tools.urlopen := Tools.urlopen orchestrator |}
  = Tools._base_url orchestrator.
Proof.
  apply (trailing_slashes_ignored orchestrator
           {| Tools.environ := job_environment_slash;
              Tools.urlopen := Tools.urlopen orchestrator |}
           "http://localhost:50051" "/").
  - reflexivity.
  - discriminate.
  - reflexivity.
  - reflexivity.
  - reflexivity.
Defined.

(** The request of the test suite. *)
Lemma call_tool_request_format_witness :
  exists body,
    snd (Tools.call_tool python orchestrator "echo" hello
           (Some (Tools.NInt 30)) [])
    = [({| Tools.url :=
             "http://localhost:50051/worker/550e8400-e29b-41d4-a716-446655440000/tools/call";
           Tools.data := body;
           Tools.headers := [("Content-Type", "application/json");
                             ("Authorization", "Bearer test-token-123")];
           Tools.http_method := "POST" |},
        Tools.SInt 35)].
Proof.
  destruct (call_tool_request_format python orchestrator "echo" hello
              (Some (Tools.NInt 30)) [] "http://localhost:50051"
              "550e8400-e29b-41d4-a716-446655440000" "test-token-123")
    as [Hsent _].
  - reflexivity.
  - discriminate.
  - reflexivity.
  - discriminate.
  - reflexivity.
  - discriminate.
  - apply Hsent. reflexivity.
Defined.

(** A timeout of 500: 300 is sent, and the transport waits 505 seconds. *)
Lemma transport_outlasts_request_witness :
  exists req wait,
    snd (Tools.call_tool python orchestrator "echo" hello
           (Some (Tools.NInt 500)) [])
    = [(req, Tools.SInt wait)]
    /\ exists sent,
         dict_get (Tools.request_body "echo" hello (Some (Tools.NInt 500)))
           "timeout_secs" VNone = VInt sent
         /\ sent = 300%Z
         /\ (sent + 5 <= wait)%Z
         /\ wait = 505%Z.
Proof.
  destruct (transport_outlasts_request python orchestrator "echo" hello
              (Some 500%Z) [])
    as [req [wait [Hlog [_ [sent [Hsent [Hmin [Hle [Hwait _]]]]]]]]].
  - apply orchestrator_reached; reflexivity.
  - exists req, wait. split; [exact Hlog|]. exists sent.
    split; [exact Hsent|]. split; [exact Hmin|]. split; [exact Hle|].
    apply Hwait. discriminate.
Defined.

(** An orchestrator that answers [{}]. *)
Lemma answer_read_by_truthiness_witness :
  fst (Tools.call_tool python_empty laconic_orchestrator "echo" hello
         None [])
  = Raise (RuntimeError "Tool 'echo' failed: unknown error").
Proof.
  destruct (answer_read_by_truthiness python_empty laconic_orchestrator
              "echo" hello None []) as [req [_ H]].
  - apply orchestrator_reached; reflexivity.
  - destruct (H (ascii_bytes (Examples.dumps empty_answer))
                (Examples.dumps empty_answer) []
                eq_refl eq_refl eq_refl) as [_ [H2 _]].
    apply H2; reflexivity.
Defined.

(** An orchestrator that answers [oops]. *)
Lemma unreadable_answer_raises_as_is_witness :
  fst (Tools.call_tool python garbled_orchestrator "echo" hello None [])
  = Raise (JSONDecodeError "Expecting value: line 1 column 1 (char 0)").
Proof.
  destruct (unreadable_answer_raises_as_is python garbled_orchestrator
              "echo" hello None []) as [req [_ [_ [H _]]]].
  - apply orchestrator_reached; reflexivity.
  - apply (H (ascii_bytes "oops") "oops"); reflexivity.
Defined.

(** [read_file("/workspace/README.md")] and [shell("ls -la", 30.5)] in a
    job container: the command goes out with a timeout of 30 seconds, and
    the transport waits 35.5 seconds. *)
Lemma convenience_calls_bodies_witness :
  (exists req,
      snd (Tools.read_file python orchestrator "/workspace/README.md" [])
      = [(req, Tools.SInt 65)]
      /\ Tools.data req
         = encode python
             (json_dumps python
                (VDict [("tool_name", VStr "read_file");
                        ("parameters",
                         VDict [("path", VStr "/workspace/README.md")])])))
  /\ (exists req,
        snd (Tools.shell python orchestrator "ls -la"
               (Some (Tools.NFloat thirty_and_a_half)) [])
        = [(req, Tools.SFloat (Tools.binary64 71 (-1)))]
        /\ Tools.data req
           = encode python
               (json_dumps python
                  (VDict [("tool_name", VStr "shell");
                          ("parameters", VDict [("command", VStr "ls -la")]);
                          ("timeout_secs", VInt 30)]))).
Proof.
  destruct (convenience_calls_bodies python orchestrator []
              "/workspace/README.md" "content" "ls -la"
              "https://api.example.com/data" VNone
              (Some (Tools.NFloat thirty_and_a_half)))
    as [Hread [_ [Hshell _]]].
  - apply orchestrator_reached; reflexivity.
  - split; [exact Hread|]. exact Hshell.
Defined.

(** The document with a stale block, updated for sha [feedface] and
    PR 19. *)
Lemma replace_keeps_surroundings_witness :
  Parity.update_content python stale_document "feedface" "19"
  = Return (("# IronClaw Feature Parity Matrix" ++ nl ++ nl)
            ++ Parity.build_auto_block "feedface" "19"
            ++ (nl ++ "Existing content." ++ nl)).
Proof.
  destruct (replace_keeps_surroundings python stale_document
              "feedface" "19"
              ("# IronClaw Feature Parity Matrix" ++ nl ++ nl)
              (Parity.START_MARKER ++ nl ++ "stale" ++ nl
               ++ Parity.END_MARKER ++ nl)
              (nl ++ "Existing content." ++ nl))
    as [_ [_ [_ H]]].
  - reflexivity.
  - reflexivity.
  - reflexivity.
  - exact H.
Defined.

(** The document of the test suite, which holds no block. *)
Lemma insert_keeps_content_witness :
  exists above below lead trail,
    parity_document = above ++ below
    /\ Parity.update_content python parity_document "c0ffee" "7"
       = Return (above ++ lead ++ Parity.build_auto_block "c0ffee" "7"
                 ++ trail ++ below)
    /\ (lead = EmptyString \/ lead = nl)
    /\ (trail = EmptyString \/ trail = nl).
Proof.
  apply (insert_keeps_content python parity_document "c0ffee" "7").
  reflexivity.
Defined.

(** The same document: the block goes below its title and the blank
    line. *)
Lemma block_goes_below_title_witness :
  Parity.insert_block_after_title parity_document
    (Parity.build_auto_block "c0ffee" "7")
  = "# IronClaw Feature Parity Matrix" ++ nl ++ nl ++ nl
    ++ Parity.build_auto_block "c0ffee" "7" ++ nl
    ++ "Existing content." ++ nl.
Proof.
  apply (block_goes_below_title parity_document
           (Parity.build_auto_block "c0ffee" "7")
           [] ("# IronClaw Feature Parity Matrix" ++ nl)
           [nl; "Existing content." ++ nl]).
  - reflexivity.
  - constructor.
  - reflexivity.
Defined.

(** The block for sha [c0ffee] and PR 7, followed by a paragraph. *)
Lemma generated_block_is_found_whole_witness :
  Parity.search (Parity.build_auto_block "c0ffee" "7" ++ "Existing content.")
  = Some (EmptyString, Parity.build_auto_block "c0ffee" "7",
          "Existing content.").
Proof.
  apply (generated_block_is_found_whole "c0ffee" "7" "Existing content.").
  - reflexivity.
  - reflexivity.
Defined.

End CoverageExamples.
